(** * ClinicHub queue dashboard: the refresh / filter / render cycle

    A shallow embedding of the "Clinic Queue System" part of
    [static/js/home/home.js] (the globals [doctors], [filteredDoctors],
    [currentDepartment] and the functions [loadDoctors], [filterDoctors],
    [renderDoctors], [createDoctorCard], [callNextPatient],
    [showNotification]), of the landing page widgets of the same file
    ([initAIDemo], [initOrganPreview], [initTypingEffect], [initMobileMenu])
    and of the pure parts of the dashboard scripts ([updateClock],
    [formatToLocalTime], the bar colours, [getCookie]), followed by the
    properties proved about them.

    Modelling conventions.
    - Strings are Rocq strings. [toLowerCase] folds the ASCII letters A-Z
      and leaves every other character as it is.
    - A queue entry is a record with the fields the script reads; a field the
      script guards with [x ? .. : ..] or [x || ..] is an [option]. A parsed
      body of the queue endpoint is [null], a value without a truthy [queues],
      or a value whose [queues] is an array of such entries; bodies of any
      other shape are outside the model.
    - The DOM nodes the script writes are record fields of [Page]; the
      children of [#queue-container] are a list of [Node]s.
    - An [async] function is cut at its [await]: a [_start] part that issues
      the request and a [_resume] part that runs when the request settles.
      Nothing of the page is read or written between the arrival of a
      response and the parsing of its body, so both are one settlement.
    - [console.error], [showNotification] and [fetch] calls are appended to
      the chronological [log] of the page. *)

From stdpp Require Import base option list strings gmap pretty.
From Stdlib Require Import Ascii ZArith Lia.

Local Open Scope Z_scope.
Local Open Scope nat_scope.

(** ** JavaScript string primitives used by the script *)

Module JsString.

(** [c] is one of the letters A-Z. *)
Definition isUpper (c : ascii) : bool :=
  let n := N_of_ascii c in (65 <=? n)%N && (n <=? 90)%N.

Definition lowerChar (c : ascii) : ascii :=
  if isUpper c then ascii_of_N (N_of_ascii c + 32) else c.

(** [String.prototype.toLowerCase]. *)
Fixpoint toLowerCase (s : string) : string :=
  match s with
  | EmptyString => EmptyString
  | String c s' => String (lowerChar c) (toLowerCase s')
  end.

(** [s.startsWith(t)]. *)
Fixpoint startsWith (s t : string) {struct t} : bool :=
  match t, s with
  | EmptyString, _ => true
  | String _ _, EmptyString => false
  | String b t', String a s' => Ascii.eqb a b && startsWith s' t'
  end.

(** [String.prototype.includes]: [t] occurs in [s] at some position. *)
Fixpoint includes (s t : string) : bool :=
  startsWith s t ||
  match s with
  | EmptyString => false
  | String _ s' => includes s' t
  end.

Fixpoint drop (n : nat) (s : string) : string :=
  match n, s with
  | O, _ => s
  | S _, EmptyString => EmptyString
  | S n', String _ s' => drop n' s'
  end.

(** The text before and after the first occurrence of [pat] in [s]. *)
Fixpoint splitFirst (pat s : string) : option (string * string) :=
  if startsWith s pat then Some (EmptyString, drop (String.length pat) s)
  else
    match s with
    | EmptyString => None
    | String c s' =>
        match splitFirst pat s' with
        | Some (before, after) => Some (String c before, after)
        | None => None
        end
    end.

(** [GetSubstitution] for a string pattern (no capture groups): [$$],
    [$&], [$`] and [$'] are expanded, every other character is literal. *)
Fixpoint getSubstitution (matched before after repl : string) : string :=
  match repl with
  | EmptyString => EmptyString
  | String c r =>
      if Ascii.eqb c "$" then
        match r with
        | EmptyString => String c EmptyString
        | String d r' =>
            if Ascii.eqb d "$" then
              String "$" (getSubstitution matched before after r')
            else if Ascii.eqb d "&" then
              matched +:+ getSubstitution matched before after r'
            else if Ascii.eqb d "`" then
              before +:+ getSubstitution matched before after r'
            else if Ascii.eqb d "'" then
              after +:+ getSubstitution matched before after r'
            else String c (getSubstitution matched before after r)
        end
      else String c (getSubstitution matched before after r)
  end.

(** [s.replace(pat, repl)] with a string pattern: the first occurrence
    only; [s] itself when [pat] does not occur. *)
Definition replace (s pat repl : string) : string :=
  match splitFirst pat s with
  | Some (before, after) =>
      before +:+ getSubstitution pat before after repl +:+ after
  | None => s
  end.

End JsString.

(** ** Data model *)

(** A patient object; every field is read behind a truthiness guard.
    [None] is an absent (or [null]) field. *)
Record Patient := {
  patient_number : option string;
  patient_name : option string;
  patient_case : option string;
  patient_time : option string
}.

(** One element of the [queues] array. *)
Record DoctorQueueEntry := {
  doctor_id : string;
  doctor_name : string;
  doctor_specialty : string;
  department : string;
  status : string;
  currentPatient : option Patient;
  waiting : option (list Patient);
  avgTime : option Z
}.

(** The value of a property read, as far as the script can observe it. *)
Inductive JsValue :=
| Undefined
| Str (s : string)
| Inherited (key : string).   (* the member [key] of [Object.prototype] *)

(** What a template literal writes for an interpolated value. [NativeText k]
    is the engine's text for the member [k] of [Object.prototype]. *)
Inductive Markup :=
| Text (s : string)
| NativeText (key : string).

Definition objectPrototypeKeys : list string :=
  ["constructor"; "__defineGetter__"; "__defineSetter__"; "hasOwnProperty";
   "__lookupGetter__"; "__lookupSetter__"; "isPrototypeOf";
   "propertyIsEnumerable"; "toString"; "valueOf"; "__proto__";
   "toLocaleString"].

(** [o[k]] on an object literal whose own properties are [o]. *)
Definition getProperty (o : gmap string string) (k : string) : JsValue :=
  match o !! k with
  | Some s => Str s
  | None => if bool_decide (k ∈ objectPrototypeKeys) then Inherited k else Undefined
  end.

(** [`${v}`]. *)
Definition interpolate (v : JsValue) : Markup :=
  match v with
  | Undefined => Text "undefined"
  | Str s => Text s
  | Inherited k => NativeText k
  end.

(** Truthiness of an optional string: absent and [''] are falsy. *)
Definition truthy (o : option string) : bool :=
  match o with
  | Some s => negb (bool_decide (s = ""))
  | None => false
  end.

(** [x || ''] *)
Definition orEmpty (o : option string) : string :=
  match o with
  | Some s => if truthy o then s else ""
  | None => ""
  end.

(** [x || 0] on a number. *)
Definition orZero (o : option Z) : Z :=
  match o with
  | Some n => if bool_decide (n = 0%Z) then 0%Z else n
  | None => 0%Z
  end.

Definition departments : gmap string string :=
  <["cardiology" := "Cardiology"]> (
  <["neurology" := "Neurology"]> (
  <["orthopedics" := "Orthopedics"]> (
  <["pediatrics" := "Pediatrics"]> (
  <["general" := "General Practice"]> ∅)))).

Definition medicalCases : gmap string string :=
  <["normal" := "Regular Checkup"]> (
  <["urgent" := "Urgent Case"]> (
  <["followup" := "Follow-up Visit"]> ∅)).

(** ** Card descriptors *)

(** The block under "Currently Examining". *)
Inductive QueueContent :=
| PatientDisplay (number name : string) (caseLabel : Markup) (time : string)
| NoCurrentPatient.           (* the "No current patient" empty state *)

(** What [createDoctorCard] builds: the texts it interpolates and the click
    listener it attaches to the call-to-action element. *)
Record Card := {
  dataset_id : string;
  dataset_department : string;
  callToAction_id : string;
  card_name : string;
  card_specialty : string;
  statusClass : string;
  statusText : string;
  queueContent : QueueContent;
  waitingCount : nat;
  avgWait : Z;
  onCallClick : option string   (* [Some id]: a click runs [callNextPatient(id)] *)
}.

(** The [switch (doctor.status)] of [createDoctorCard]: class and text. *)
Definition statusBadge (st : string) : string * string :=
  if bool_decide (st = "available") then ("status-available", "Available")
  else if bool_decide (st = "in-session") then ("status-in-session", "In Session")
  else if bool_decide (st = "on-break") then ("status-on-break", "On Break")
  else ("status-available", "Available").

(** [doctor.currentPatient.case ? medicalCases[doctor.currentPatient.case] : ''],
    interpolated. *)
Definition caseLabelOf (p : Patient) : Markup :=
  if truthy (patient_case p)
  then interpolate (getProperty medicalCases (default "" (patient_case p)))
  else Text "".

Definition queueContentOf (cp : option Patient) : QueueContent :=
  match cp with
  | Some p =>
      PatientDisplay (orEmpty (patient_number p)) (orEmpty (patient_name p))
                     (caseLabelOf p) (orEmpty (patient_time p))
  | None => NoCurrentPatient
  end.

Definition createDoctorCard (doctor : DoctorQueueEntry) : Card :=
  let badge := statusBadge (status doctor) in
  {| dataset_id := doctor_id doctor;
     dataset_department := department doctor;
     callToAction_id := doctor_id doctor;
     card_name := doctor_name doctor;
     card_specialty := doctor_specialty doctor;
     statusClass := badge.1;
     statusText := badge.2;
     queueContent := queueContentOf (currentPatient doctor);
     waitingCount :=
       match waiting doctor with
       | Some w => length w
       | None => 0
       end;
     avgWait := orZero (avgTime doctor);
     onCallClick :=
       match currentPatient doctor with
       | Some _ => Some (doctor_id doctor)
       | None => None
       end |}.

(** A child of [#queue-container]. *)
Inductive Node :=
| NoDoctorsFound              (* the "No Doctors Found" empty state *)
| CardNode (c : Card)
| HostNode (markup : string). (* content the host page put there *)

(** ** Network and runtime *)

(** Configuration the host page publishes on [window]. *)
Record Window := {
  QUEUE_API : string;
  CALL_NEXT_API : string;
  CSRF_TOKEN : string
}.

Inductive JsError :=
| FetchFailed                 (* [fetch] rejected: network failure *)
| Error (message : string)    (* [new Error(message)] *)
| SyntaxError                 (* [response.json()] on a body that is not JSON *)
| TypeError.                  (* a property read on [null] *)

Inductive Method := GET | POST.

Record Request := {
  req_method : Method;
  req_url : string;
  req_headers : list (string * string)
}.

Inductive Effect :=
| Fetch (r : Request)
| ConsoleError (label : string) (e : JsError)
| ShowNotification (title message : string)
| Uncaught (e : JsError).

(** A response: its [ok] flag and what [response.json()] gives,
    [None] when the body is not valid JSON. *)
Record Response (D : Type) := {
  ok : bool;
  body : option D
}.
Arguments ok {D} _.
Arguments body {D} _.

Inductive FetchResult (D : Type) :=
| Rejected
| Fulfilled (response : Response D).
Arguments Rejected {D}.
Arguments Fulfilled {D} _.

(** A parsed body of the queue endpoint, as [loadDoctors] reads it. *)
Inductive QueueData :=
| QueueNull                   (* the JSON value [null] *)
| QueueValue (queues : option (list DoctorQueueEntry)).
    (* any other value; [queues] is its [queues] property when that is
       truthy, [None] when it is absent or falsy *)

(** A parsed body of the call-next endpoint, as [callNextPatient] reads it. *)
Inductive CallData :=
| CallNull
| CallValue (success : bool). (* truthiness of the [success] property *)

(** The globals of the script, the DOM nodes it writes, and the runtime. *)
Record Page := {
  doctors : list DoctorQueueEntry;
  filteredDoctors : list DoctorQueueEntry;
  currentDepartment : string;
  searchInput_value : string;
  activeControl : option string;       (* data-department of the control with class [active] *)
  queueContainer : list Node;
  doctorCount_text : nat;
  updateTime_text : string;
  currentTime_text : string;
  notification_title : string;
  notification_message : string;
  notification_show : bool;
  log : list Effect;
  pendingLoads : nat;                  (* [loadDoctors] runs suspended at [await] *)
  pendingCalls : list string;          (* [callNextPatient] runs suspended at [await] *)
  notificationTimers : nat             (* armed 5000 ms timers of [showNotification] *)
}.

Definition set_doctors v (p : Page) : Page :=
  {| doctors := v; filteredDoctors := filteredDoctors p;
     currentDepartment := currentDepartment p;
     searchInput_value := searchInput_value p; activeControl := activeControl p;
     queueContainer := queueContainer p; doctorCount_text := doctorCount_text p;
     updateTime_text := updateTime_text p; currentTime_text := currentTime_text p;
     notification_title := notification_title p;
     notification_message := notification_message p;
     notification_show := notification_show p; log := log p;
     pendingLoads := pendingLoads p; pendingCalls := pendingCalls p;
     notificationTimers := notificationTimers p |}.

Definition set_filteredDoctors v (p : Page) : Page :=
  {| doctors := doctors p; filteredDoctors := v;
     currentDepartment := currentDepartment p;
     searchInput_value := searchInput_value p; activeControl := activeControl p;
     queueContainer := queueContainer p; doctorCount_text := doctorCount_text p;
     updateTime_text := updateTime_text p; currentTime_text := currentTime_text p;
     notification_title := notification_title p;
     notification_message := notification_message p;
     notification_show := notification_show p; log := log p;
     pendingLoads := pendingLoads p; pendingCalls := pendingCalls p;
     notificationTimers := notificationTimers p |}.

Definition set_currentDepartment v (p : Page) : Page :=
  {| doctors := doctors p; filteredDoctors := filteredDoctors p;
     currentDepartment := v;
     searchInput_value := searchInput_value p; activeControl := activeControl p;
     queueContainer := queueContainer p; doctorCount_text := doctorCount_text p;
     updateTime_text := updateTime_text p; currentTime_text := currentTime_text p;
     notification_title := notification_title p;
     notification_message := notification_message p;
     notification_show := notification_show p; log := log p;
     pendingLoads := pendingLoads p; pendingCalls := pendingCalls p;
     notificationTimers := notificationTimers p |}.

Definition set_searchInput_value v (p : Page) : Page :=
  {| doctors := doctors p; filteredDoctors := filteredDoctors p;
     currentDepartment := currentDepartment p;
     searchInput_value := v; activeControl := activeControl p;
     queueContainer := queueContainer p; doctorCount_text := doctorCount_text p;
     updateTime_text := updateTime_text p; currentTime_text := currentTime_text p;
     notification_title := notification_title p;
     notification_message := notification_message p;
     notification_show := notification_show p; log := log p;
     pendingLoads := pendingLoads p; pendingCalls := pendingCalls p;
     notificationTimers := notificationTimers p |}.

Definition set_activeControl v (p : Page) : Page :=
  {| doctors := doctors p; filteredDoctors := filteredDoctors p;
     currentDepartment := currentDepartment p;
     searchInput_value := searchInput_value p; activeControl := v;
     queueContainer := queueContainer p; doctorCount_text := doctorCount_text p;
     updateTime_text := updateTime_text p; currentTime_text := currentTime_text p;
     notification_title := notification_title p;
     notification_message := notification_message p;
     notification_show := notification_show p; log := log p;
     pendingLoads := pendingLoads p; pendingCalls := pendingCalls p;
     notificationTimers := notificationTimers p |}.

Definition set_queueContainer v (p : Page) : Page :=
  {| doctors := doctors p; filteredDoctors := filteredDoctors p;
     currentDepartment := currentDepartment p;
     searchInput_value := searchInput_value p; activeControl := activeControl p;
     queueContainer := v; doctorCount_text := doctorCount_text p;
     updateTime_text := updateTime_text p; currentTime_text := currentTime_text p;
     notification_title := notification_title p;
     notification_message := notification_message p;
     notification_show := notification_show p; log := log p;
     pendingLoads := pendingLoads p; pendingCalls := pendingCalls p;
     notificationTimers := notificationTimers p |}.

Definition set_doctorCount_text v (p : Page) : Page :=
  {| doctors := doctors p; filteredDoctors := filteredDoctors p;
     currentDepartment := currentDepartment p;
     searchInput_value := searchInput_value p; activeControl := activeControl p;
     queueContainer := queueContainer p; doctorCount_text := v;
     updateTime_text := updateTime_text p; currentTime_text := currentTime_text p;
     notification_title := notification_title p;
     notification_message := notification_message p;
     notification_show := notification_show p; log := log p;
     pendingLoads := pendingLoads p; pendingCalls := pendingCalls p;
     notificationTimers := notificationTimers p |}.

Definition set_updateTime_text v (p : Page) : Page :=
  {| doctors := doctors p; filteredDoctors := filteredDoctors p;
     currentDepartment := currentDepartment p;
     searchInput_value := searchInput_value p; activeControl := activeControl p;
     queueContainer := queueContainer p; doctorCount_text := doctorCount_text p;
     updateTime_text := v; currentTime_text := currentTime_text p;
     notification_title := notification_title p;
     notification_message := notification_message p;
     notification_show := notification_show p; log := log p;
     pendingLoads := pendingLoads p; pendingCalls := pendingCalls p;
     notificationTimers := notificationTimers p |}.

Definition set_currentTime_text v (p : Page) : Page :=
  {| doctors := doctors p; filteredDoctors := filteredDoctors p;
     currentDepartment := currentDepartment p;
     searchInput_value := searchInput_value p; activeControl := activeControl p;
     queueContainer := queueContainer p; doctorCount_text := doctorCount_text p;
     updateTime_text := updateTime_text p; currentTime_text := v;
     notification_title := notification_title p;
     notification_message := notification_message p;
     notification_show := notification_show p; log := log p;
     pendingLoads := pendingLoads p; pendingCalls := pendingCalls p;
     notificationTimers := notificationTimers p |}.

(** The notification element: heading, paragraph, the [show] class and the
    number of armed hide timers. *)
Definition set_notification title message shown timers (p : Page) : Page :=
  {| doctors := doctors p; filteredDoctors := filteredDoctors p;
     currentDepartment := currentDepartment p;
     searchInput_value := searchInput_value p; activeControl := activeControl p;
     queueContainer := queueContainer p; doctorCount_text := doctorCount_text p;
     updateTime_text := updateTime_text p; currentTime_text := currentTime_text p;
     notification_title := title;
     notification_message := message;
     notification_show := shown; log := log p;
     pendingLoads := pendingLoads p; pendingCalls := pendingCalls p;
     notificationTimers := timers |}.

Definition set_log v (p : Page) : Page :=
  {| doctors := doctors p; filteredDoctors := filteredDoctors p;
     currentDepartment := currentDepartment p;
     searchInput_value := searchInput_value p; activeControl := activeControl p;
     queueContainer := queueContainer p; doctorCount_text := doctorCount_text p;
     updateTime_text := updateTime_text p; currentTime_text := currentTime_text p;
     notification_title := notification_title p;
     notification_message := notification_message p;
     notification_show := notification_show p; log := v;
     pendingLoads := pendingLoads p; pendingCalls := pendingCalls p;
     notificationTimers := notificationTimers p |}.

Definition set_pending loads calls (p : Page) : Page :=
  {| doctors := doctors p; filteredDoctors := filteredDoctors p;
     currentDepartment := currentDepartment p;
     searchInput_value := searchInput_value p; activeControl := activeControl p;
     queueContainer := queueContainer p; doctorCount_text := doctorCount_text p;
     updateTime_text := updateTime_text p; currentTime_text := currentTime_text p;
     notification_title := notification_title p;
     notification_message := notification_message p;
     notification_show := notification_show p; log := log p;
     pendingLoads := loads; pendingCalls := calls;
     notificationTimers := notificationTimers p |}.

Definition emit (e : Effect) (p : Page) : Page := set_log (log p ++ [e]) p.

(** ** Script execution: state and exceptions *)

Inductive Completion (A : Type) :=
| Normal (a : A)
| Throw (e : JsError).
Arguments Normal {A} _.
Arguments Throw {A} _.

Definition Js (A : Type) : Type := Page -> Completion A * Page.

Definition ret {A} (a : A) : Js A := fun p => (Normal a, p).

Definition bind {A B} (m : Js A) (k : A -> Js B) : Js B :=
  fun p =>
    match m p with
    | (Normal a, p') => k a p'
    | (Throw e, p') => (Throw e, p')
    end.

Definition throw {A} (e : JsError) : Js A := fun p => (Throw e, p).

(** [try { body } catch (error) { handler }] *)
Definition tryCatch {A} (body : Js A) (handler : JsError -> Js A) : Js A :=
  fun p =>
    match body p with
    | (Normal a, p') => (Normal a, p')
    | (Throw e, p') => handler e p'
    end.

Definition gets {A} (f : Page -> A) : Js A := fun p => (Normal (f p), p).
Definition modify (f : Page -> Page) : Js unit := fun p => (Normal tt, f p).

Declare Scope js_scope.
Delimit Scope js_scope with js.
Notation "x <- m ;; k" := (bind m (fun x => k))
  (at level 100, m at next level, right associativity) : js_scope.
Notation "m ;; k" := (bind m (fun _ => k))
  (at level 100, right associativity) : js_scope.
Local Open Scope js_scope.

(** [list.forEach(f)] *)
Fixpoint forEach {A} (l : list A) (f : A -> Js unit) : Js unit :=
  match l with
  | [] => ret tt
  | x :: l' => f x ;; forEach l' f
  end.

(** An event handler or an ignored promise: an exception that escapes it is
    reported by the runtime and nothing else happens. *)
Definition runHandler (m : Js unit) (p : Page) : Page :=
  match m p with
  | (Normal _, p') => p'
  | (Throw e, p') => emit (Uncaught e) p'
  end.

(** [await fetch(..)] once the request has settled with [r]. *)
Definition awaitFetch {D} (r : FetchResult D) : Js (Response D) :=
  match r with
  | Rejected => throw FetchFailed
  | Fulfilled response => ret response
  end.

(** [await response.json()] *)
Definition awaitJson {D} (response : Response D) : Js D :=
  match body response with
  | Some data => ret data
  | None => throw SyntaxError
  end.

(** ** The queue controller *)

Section Controller.

Variable window : Window.

(** [showNotification(title, message)]: fills the notification element,
    shows it and arms the timer that hides it after 5000 ms. *)
Definition showNotification (title message : string) : Js unit :=
  modify (fun p =>
    emit (ShowNotification title message)
         (set_notification title message true (S (notificationTimers p)) p)).

Definition console_error (label : string) (e : JsError) : Js unit :=
  modify (emit (ConsoleError label e)).

Definition fetch (r : Request) : Js unit := modify (emit (Fetch r)).

(** [renderDoctors()] *)
Definition renderDoctors : Js unit :=
  modify (set_queueContainer []) ;;
  shown <- gets filteredDoctors ;;
  if bool_decide (length shown = 0) then
    modify (set_queueContainer [NoDoctorsFound])
  else
    forEach shown (fun doctor =>
      let card := createDoctorCard doctor in
      modify (fun p => set_queueContainer (queueContainer p ++ [CardNode card]) p)).

(** The callback of [doctors.filter] in [filterDoctors]. *)
Definition matchesFilter (dept searchTerm : string) (doctor : DoctorQueueEntry) : bool :=
  let matchesDepartment :=
    bool_decide (dept = "all") || bool_decide (department doctor = dept) in
  let matchesSearch :=
    negb (truthy (Some searchTerm))
    || JsString.includes (JsString.toLowerCase (doctor_name doctor)) searchTerm
    || JsString.includes (JsString.toLowerCase (doctor_specialty doctor)) searchTerm in
  matchesDepartment && matchesSearch.

(** [filterDoctors()] *)
Definition filterDoctors : Js unit :=
  value <- gets searchInput_value ;;
  let searchTerm := JsString.toLowerCase value in
  all <- gets doctors ;;
  dept <- gets currentDepartment ;;
  modify (set_filteredDoctors (List.filter (matchesFilter dept searchTerm) all)) ;;
  renderDoctors.

Definition queueRequest : Request :=
  {| req_method := GET; req_url := QUEUE_API window; req_headers := [] |}.

(** [loadDoctors()] up to [await fetch(window.QUEUE_API)]. *)
Definition loadDoctors_start : Js unit :=
  fetch queueRequest ;;
  modify (fun p => set_pending (S (pendingLoads p)) (pendingCalls p) p).

(** [data.queues] *)
Definition readQueues (data : QueueData) : Js (option (list DoctorQueueEntry)) :=
  match data with
  | QueueNull => throw TypeError
  | QueueValue queues => ret queues
  end.

(** The [catch (error)] block of [loadDoctors]. *)
Definition reportLoadError (error : JsError) : Js unit :=
  console_error "Error fetching queue data:" error ;;
  showNotification "System Error" "Failed to load queue data. Using cached data.".

(** The [catch (error)] block of [callNextPatient]. *)
Definition reportCallError (error : JsError) : Js unit :=
  console_error "Error calling next patient:" error ;;
  showNotification "System Error" "Failed to call next patient".

(** The rest of [loadDoctors()], run when the request has settled with [r];
    [now] is the [toLocaleTimeString] of the clock at that moment. *)
Definition loadDoctors_resume (r : FetchResult QueueData) (now : string) : Js unit :=
  tryCatch
    (response <- awaitFetch r ;;
     if negb (ok response) then throw (Error "Network response was not ok")
     else
       data <- awaitJson response ;;
       queues <- readQueues data ;;
       match queues with
       | Some qs =>
           modify (set_doctors qs) ;;
           all <- gets doctors ;;
           modify (set_doctorCount_text (length all)) ;;
           filterDoctors ;;
           modify (set_updateTime_text now)
       | None => ret tt
       end)
    reportLoadError.

Definition callNextRequest (doctorId : string) : Request :=
  {| req_method := POST;
     req_url := JsString.replace (CALL_NEXT_API window) "0" doctorId;
     req_headers := [("Content-Type", "application/json");
                     ("X-CSRFToken", CSRF_TOKEN window)] |}.

(** [callNextPatient(doctorId)] up to [await fetch(url, ..)]. *)
Definition callNextPatient_start (doctorId : string) : Js unit :=
  fetch (callNextRequest doctorId) ;;
  modify (fun p => set_pending (pendingLoads p) (pendingCalls p ++ [doctorId]) p).

(** [data.success] *)
Definition readSuccess (data : CallData) : Js bool :=
  match data with
  | CallNull => throw TypeError
  | CallValue success => ret success
  end.

(** The rest of [callNextPatient(doctorId)]. *)
Definition callNextPatient_resume (doctorId : string) (r : FetchResult CallData) : Js unit :=
  tryCatch
    (response <- awaitFetch r ;;
     if negb (ok response) then throw (Error "Failed to call next patient")
     else
       data <- awaitJson response ;;
       success <- readSuccess data ;;
       if success then
         showNotification "Patient Called" ("Next patient called for doctor " +:+ doctorId) ;;
         loadDoctors_start
       else ret tt)
    reportCallError.

(** [updateClock()] *)
Definition updateClock (now : string) : Js unit :=
  modify (set_currentTime_text now).

(** The click listener of a view control. *)
Definition onControlClick (dept : string) : Js unit :=
  modify (set_activeControl (Some dept)) ;;
  modify (set_currentDepartment dept) ;;
  filterDoctors.

Inductive ControlButton := SettingsBtn | ReportsBtn | AdminBtn.

Definition onButtonClick (b : ControlButton) : Js unit :=
  match b with
  | SettingsBtn => showNotification "Settings" "System settings panel opened"
  | ReportsBtn => showNotification "Reports" "Generating system performance reports..."
  | AdminBtn => showNotification "Admin Panel" "Accessed system administration controls"
  end.

(** [init()]: the first [loadDoctors()] and [updateClock()]; the listeners
    and timers it registers are the events of [step]. *)
Definition init (now : string) : Js unit :=
  loadDoctors_start ;;
  updateClock now.

(** What the browser delivers to the script. *)
Inductive Event :=
| RefreshTick                                   (* [setInterval(loadDoctors, 15000)] *)
| QueueSettled (r : FetchResult QueueData) (now : string)
| DepartmentClick (dept : string)               (* click on a view control *)
| SearchInput (text : string)                   (* [input] on the search box *)
| CallClick (i : nat)                           (* click on the call-to-action of child [i] *)
| CallSettled (doctorId : string) (r : FetchResult CallData)
| ButtonClick (b : ControlButton)
| ClockTick (now : string)                      (* [setInterval(updateClock, 1000)] *)
| ReadyTimer                                    (* the 1500 ms timer of [init] *)
| NotificationTimeout.                          (* a 5000 ms timer of [showNotification] *)

(** [l] without the first occurrence of [x]; [None] when there is none. *)
Fixpoint takeOut (x : string) (l : list string) : option (list string) :=
  match l with
  | [] => None
  | y :: l' =>
      if bool_decide (x = y) then Some l'
      else
        match takeOut x l' with
        | Some r => Some (y :: r)
        | None => None
        end
  end.

(** One turn of the event loop; [None] when the event cannot occur in [p]
    (no such request is pending, no such child, no timer armed). *)
Definition step (p : Page) (ev : Event) : option Page :=
  match ev with
  | RefreshTick => Some (runHandler loadDoctors_start p)
  | QueueSettled r now =>
      match pendingLoads p with
      | S n => Some (runHandler (loadDoctors_resume r now)
                                (set_pending n (pendingCalls p) p))
      | O => None
      end
  | DepartmentClick dept => Some (runHandler (onControlClick dept) p)
  | SearchInput text => Some (runHandler filterDoctors (set_searchInput_value text p))
  | CallClick i =>
      match queueContainer p !! i with
      | Some (CardNode card) =>
          match onCallClick card with
          | Some doctorId => Some (runHandler (callNextPatient_start doctorId) p)
          | None => Some p
          end
      | Some _ => Some p
      | None => None
      end
  | CallSettled doctorId r =>
      match takeOut doctorId (pendingCalls p) with
      | Some rest => Some (runHandler (callNextPatient_resume doctorId r)
                                      (set_pending (pendingLoads p) rest p))
      | None => None
      end
  | ButtonClick b => Some (runHandler (onButtonClick b) p)
  | ClockTick now => Some (runHandler (updateClock now) p)
  | ReadyTimer =>
      Some (runHandler (showNotification "System Ready" "Clinic queue system initialized") p)
  | NotificationTimeout =>
      match notificationTimers p with
      | S n => Some (set_notification (notification_title p) (notification_message p) false n p)
      | O => None
      end
  end.

Fixpoint run (p : Page) (evs : list Event) : option Page :=
  match evs with
  | [] => Some p
  | ev :: evs' =>
      match step p ev with
      | Some p' => run p' evs'
      | None => None
      end
  end.

End Controller.

(** The page right after the script has been loaded into the host page
    [dom]: the three globals hold their initialisers and nothing is pending. *)
Definition scriptLoaded (dom : Page) : Page :=
  set_pending 0 [] (set_log []
    (set_currentDepartment "all" (set_filteredDoctors [] (set_doctors [] dom)))).

(** The page after [DOMContentLoaded] has run [init]. *)
Definition pageAfterInit (window : Window) (dom : Page) (now : string) : Page :=
  runHandler (init window now) (scriptLoaded dom).

(** ** Vocabulary of the specification *)

(** The selected department and the search text, as the page holds them. *)
Record FilterState := {
  selectedDepartment : string;
  searchText : string
}.

Definition filterState (p : Page) : FilterState :=
  {| selectedDepartment := currentDepartment p;
     searchText := searchInput_value p |}.




(** [Selection P l r]: [r] is [l] with exactly the elements that do not
    satisfy [P] taken out, the others staying in place. *)
Inductive Selection {A} (P : A -> Prop) : list A -> list A -> Prop :=
| Selection_nil : Selection P [] []
| Selection_keep x l r : P x -> Selection P l r -> Selection P (x :: l) (x :: r)
| Selection_drop x l r : ~ P x -> Selection P l r -> Selection P (x :: l) r.

(** The cards among the children of the container. *)
Definition cardsOf (nodes : list Node) : list Card :=
  omap (fun n => match n with CardNode c => Some c | _ => None end) nodes.

(** What [renderDoctors] leaves in the container for the entries [l]. *)
Definition renderNodes (l : list DoctorQueueEntry) : list Node :=
  match l with
  | [] => [NoDoctorsFound]
  | _ => List.map (fun doctor => CardNode (createDoctorCard doctor)) l
  end.

(** The view as a function of a snapshot and a filter state alone. *)
Definition projection (S : list DoctorQueueEntry) (F : FilterState) : list Node :=
  renderNodes
    (List.filter (matchesFilter (selectedDepartment F)
                                (JsString.toLowerCase (searchText F))) S).

(** The snapshot a settled refresh stores, if it stores one. *)
Definition fetched (ev : Event) : option (list DoctorQueueEntry) :=
  match ev with
  | QueueSettled (Fulfilled response) _ =>
      if ok response then
        match body response with
        | Some (QueueValue (Some qs)) => Some qs
        | _ => None
        end
      else None
  | _ => None
  end.

(** The snapshot of the most recent successful refresh among [evs]. *)
Definition latestSnapshot (evs : list Event) : option (list DoctorQueueEntry) :=
  fold_left (fun acc ev => match fetched ev with Some qs => Some qs | None => acc end)
            evs None.

Definition notices (l : list Effect) : nat :=
  length (List.filter (fun e => match e with ShowNotification _ _ => true | _ => false end) l).

Definition diagnostics (l : list Effect) : nat :=
  length (List.filter (fun e => match e with ConsoleError _ _ => true | _ => false end) l).

Definition requests (l : list Effect) : nat :=
  length (List.filter (fun e => match e with Fetch _ => true | _ => false end) l).

Definition uncaught (l : list Effect) : nat :=
  length (List.filter (fun e => match e with Uncaught _ => true | _ => false end) l).

(** The ways a refresh can fail, in the words of the specification. *)
Inductive RefreshFailure : FetchResult QueueData -> Prop :=
| refresh_rejected : RefreshFailure Rejected
| refresh_not_ok b : RefreshFailure (Fulfilled {| ok := false; body := b |})
| refresh_not_json : RefreshFailure (Fulfilled {| ok := true; body := None |})
| refresh_null : RefreshFailure (Fulfilled {| ok := true; body := Some QueueNull |})
| refresh_no_queues :
    RefreshFailure (Fulfilled {| ok := true; body := Some (QueueValue None) |}).

(** The failures of a refresh that raise an exception in [loadDoctors]. *)
Inductive RefreshThrows : FetchResult QueueData -> JsError -> Prop :=
| throws_rejected : RefreshThrows Rejected FetchFailed
| throws_not_ok b :
    RefreshThrows (Fulfilled {| ok := false; body := b |})
                  (Error "Network response was not ok")
| throws_not_json : RefreshThrows (Fulfilled {| ok := true; body := None |}) SyntaxError
| throws_null : RefreshThrows (Fulfilled {| ok := true; body := Some QueueNull |}) TypeError.


(** The failures of a call-next command that raise an exception. *)
Inductive CallThrows : FetchResult CallData -> JsError -> Prop :=
| call_throws_rejected : CallThrows Rejected FetchFailed
| call_throws_not_ok b :
    CallThrows (Fulfilled {| ok := false; body := b |})
               (Error "Failed to call next patient").

(** A 2xx answer to call-next whose body has a true [success]. *)
Definition callSucceeded : FetchResult CallData :=
  Fulfilled {| ok := true; body := Some (CallValue true) |}.

(** The view agrees with the snapshot and the filter state of the page. *)
Definition viewConsistent (p : Page) : Prop :=
  queueContainer p = projection (doctors p) (filterState p).

(** The page after a pending [loadDoctors] has settled with [r]. *)
Definition afterRefresh (r : FetchResult QueueData) (now : string) (p : Page) : Page :=
  runHandler (loadDoctors_resume r now) p.

(** The page after a pending [callNextPatient(doctorId)] has settled with [r]. *)
Definition afterCall (window : Window) (doctorId : string)
    (r : FetchResult CallData) (p : Page) : Page :=
  runHandler (callNextPatient_resume window doctorId r) p.

(** The specification's account of a failed refresh: the snapshot is kept,
    and exactly one notice and one console diagnostic are produced, none
    of them an uncaught error. *)
Definition failedRefreshReported (r : FetchResult QueueData) (now : string) (p : Page) : Prop :=
  doctors (afterRefresh r now p) = doctors p /\
  exists added,
    log (afterRefresh r now p) = log p ++ added /\
    notices added = 1 /\ diagnostics added = 1 /\ uncaught added = 0.

(** The specification's account of a failed call-next: an error notice is
    shown, and snapshot, filter state and view are kept. *)
Definition failedCallReported (window : Window) (doctorId : string)
    (r : FetchResult CallData) (p : Page) : Prop :=
  (exists added,
     log (afterCall window doctorId r p) = log p ++ added /\ 1 <= notices added) /\
  doctors (afterCall window doctorId r p) = doctors p /\
  filterState (afterCall window doctorId r p) = filterState p /\
  queueContainer (afterCall window doctorId r p) = queueContainer p.

(** The case kinds of the specification. *)
Definition caseKinds : list string := ["normal"; "urgent"; "followup"].

(** ** Sample data *)

Module Sample.

Definition window : Window :=
  {| QUEUE_API := "/api/queues/";
     CALL_NEXT_API := "/api/queues/0/call-next/";
     CSRF_TOKEN := "token" |}.

Definition ann : Patient :=
  {| patient_number := Some "7"; patient_name := Some "Ann";
     patient_case := Some "urgent"; patient_time := Some "10:05" |}.

(** A patient whose case kind is outside the closed set. *)
Definition bob : Patient :=
  {| patient_number := Some "8"; patient_name := Some "Bob";
     patient_case := Some "emergency"; patient_time := Some "10:20" |}.

Definition drLee : DoctorQueueEntry :=
  {| doctor_id := "42"; doctor_name := "Dr. Lee";
     doctor_specialty := "Cardiologist"; department := "cardiology";
     status := "in-session"; currentPatient := Some ann;
     waiting := Some [bob]; avgTime := Some 12%Z |}.

(** No current patient, no waiting list, a status outside the known ones. *)
Definition drKhan : DoctorQueueEntry :=
  {| doctor_id := "7"; doctor_name := "Dr. Khan";
     doctor_specialty := "Neurologist"; department := "neurology";
     status := "away"; currentPatient := None;
     waiting := None; avgTime := None |}.

Definition drOkoye : DoctorQueueEntry :=
  {| doctor_id := "9"; doctor_name := "Dr. Okoye";
     doctor_specialty := "Pediatrician"; department := "pediatrics";
     status := "available"; currentPatient := Some bob;
     waiting := Some []; avgTime := Some 0%Z |}.

(** A host page with an empty container and an empty search box. *)
Definition dom : Page :=
  {| doctors := []; filteredDoctors := []; currentDepartment := "all";
     searchInput_value := ""; activeControl := Some "all";
     queueContainer := []; doctorCount_text := 0;
     updateTime_text := "--:--"; currentTime_text := "";
     notification_title := ""; notification_message := "";
     notification_show := false; log := [];
     pendingLoads := 0; pendingCalls := []; notificationTimers := 0 |}.

Definition page : Page := pageAfterInit window dom "10:00:00 AM".

Definition queuesBody (qs : list DoctorQueueEntry) : FetchResult QueueData :=
  Fulfilled {| ok := true; body := Some (QueueValue (Some qs)) |}.



(** A session: first refresh, a department chosen, a search typed, a
    call-next for doctor 42 that succeeds, a refresh that fails. *)
Definition session : list Event :=
  [QueueSettled (queuesBody [drLee; drKhan; drOkoye]) "10:00 AM";
   DepartmentClick "cardiology";
   SearchInput "LEE";
   CallClick 0;
   CallSettled "42" callSucceeded;
   RefreshTick;
   QueueSettled Rejected "10:01 AM";
   QueueSettled (queuesBody [drKhan; drLee]) "10:01 AM";
   SearchInput "";
   DepartmentClick "all";
   NotificationTimeout].

(** The page the session ends in. *)
Definition final : Page := default page (run window page session).

End Sample.

(** ** Vocabulary for the accounting of requests and header fields *)

(** The requests for the queues among the effects [l]. *)
Definition queueFetches (l : list Effect) : nat :=
  length (List.filter
            (fun e => match e with
                      | Fetch r => match req_method r with GET => true | POST => false end
                      | _ => false
                      end) l).

(** The call-next requests among the effects [l]. *)
Definition callFetches (l : list Effect) : nat :=
  length (List.filter
            (fun e => match e with
                      | Fetch r => match req_method r with POST => true | GET => false end
                      | _ => false
                      end) l).

Definition isRefreshTick (ev : Event) : bool :=
  match ev with
  | RefreshTick => true
  | _ => false
  end.

(** A call-next settled by a 2xx answer whose body has a true [success]. *)
Definition isSuccessfulCall (ev : Event) : bool :=
  match ev with
  | CallSettled _ (Fulfilled response) =>
      ok response &&
      match body response with
      | Some (CallValue true) => true
      | _ => false
      end
  | _ => false
  end.

Definition countEvents (f : Event -> bool) (evs : list Event) : nat :=
  length (List.filter f evs).

(** The clock reading of a settled refresh that stores a snapshot. *)
Definition fetchedAt (ev : Event) : option string :=
  match ev with
  | QueueSettled _ now =>
      match fetched ev with
      | Some _ => Some now
      | None => None
      end
  | _ => None
  end.

(** The clock reading of the most recent successful refresh among [evs]. *)
Definition latestRefreshTime (evs : list Event) : option string :=
  fold_left (fun acc ev => match fetchedAt ev with Some now => Some now | None => acc end)
            evs None.

(** ** The landing page widgets of [home.js]

    [initAIDemo], [initOrganPreview], [initTypingEffect] and
    [initMobileMenu]. An element's class list is modelled by the one class
    the script adds and removes, [active]. *)

Module Landing.

(** The [.process-step] elements (is [active] set?) and [currentStep]. *)
Record AIDemo := {
  processSteps : list bool;
  currentStep : nat
}.

(** [animateProcess()]: [processSteps[currentStep]] is [undefined] when
    there is no such element, and reading its [classList] throws. *)
Definition animateProcess (s : AIDemo) : Completion unit * AIDemo :=
  let cleared := List.map (fun _ => false) (processSteps s) in
  match cleared !! currentStep s with
  | Some _ =>
      (Normal tt,
       {| processSteps := <[currentStep s := true]> cleared;
          currentStep := (currentStep s + 1) mod length cleared |})
  | None =>
      (Throw TypeError,
       {| processSteps := cleared; currentStep := currentStep s |})
  end.

(** [k] ticks of [setInterval(animateProcess, 1500)]; a tick that throws
    does not stop the interval. *)
Fixpoint aiDemoTicks (k : nat) (s : AIDemo) : AIDemo :=
  match k with
  | O => s
  | S k' => aiDemoTicks k' (animateProcess s).2
  end.

(** An array index as the script computes it: [x % 0] is [NaN]. *)
Inductive JsIndex :=
| NaN
| Index (n : nat).

(** The [.organ] elements and [currentIndex]. *)
Record OrganPreview := {
  organs : list bool;
  currentIndex : JsIndex
}.

(** [(currentIndex + 1) % organs.length] *)
Definition nextIndex (i : JsIndex) (n : nat) : JsIndex :=
  match i, n with
  | Index c, S _ => Index ((c + 1) mod n)
  | _, _ => NaN
  end.

(** [activateOrgan(index)] *)
Definition activateOrgan (index : JsIndex) (os : list bool) : Completion unit * list bool :=
  let cleared := List.map (fun _ => false) os in
  match index with
  | Index i =>
      match cleared !! i with
      | Some _ => (Normal tt, <[i := true]> cleared)
      | None => (Throw TypeError, cleared)
      end
  | NaN => (Throw TypeError, cleared)
  end.

(** The callback of the 3000 ms interval of [initOrganPreview]. *)
Definition organTick (s : OrganPreview) : Completion unit * OrganPreview :=
  let i := nextIndex (currentIndex s) (length (organs s)) in
  let r := activateOrgan i (organs s) in
  (r.1, {| organs := r.2; currentIndex := i |}).

Fixpoint organTicks (k : nat) (s : OrganPreview) : OrganPreview :=
  match k with
  | O => s
  | S k' => organTicks k' (organTick s).2
  end.

(** The phrases of [initTypingEffect]. *)
Definition texts : list string :=
  ["Management Platform"; "Diagnostic System"; "Patient Hub"; "AI Assistant"].

(** The variables of [initTypingEffect] and the text of [.typing-text]. *)
Record Typing := {
  textIndex : nat;
  charIndex : Z;
  isDeleting : bool;
  typingSpeed : nat;
  typingText : string
}.

(** [s.substring(0, e)]: a negative [e] counts as 0, one past the end as
    the length. *)
Definition substring0 (s : string) (e : Z) : string :=
  String.substring 0 (Z.to_nat e) s.

(** [type()]: the new state and the delay handed to [setTimeout]. *)
Definition type (s : Typing) : Completion nat * Typing :=
  match texts !! textIndex s with
  | None => (Throw TypeError, s)
  | Some currentText =>
      let shown :=
        if isDeleting s then substring0 currentText (charIndex s - 1)
        else substring0 currentText (charIndex s + 1) in
      let index := if isDeleting s then (charIndex s - 1)%Z else (charIndex s + 1)%Z in
      if negb (isDeleting s) && bool_decide (index = Z.of_nat (String.length currentText)) then
        (Normal 1000,
         {| textIndex := textIndex s; charIndex := index; isDeleting := true;
            typingSpeed := 100; typingText := shown |})
      else if isDeleting s && bool_decide (index = 0%Z) then
        (Normal 500,
         {| textIndex := (textIndex s + 1) mod length texts; charIndex := index;
            isDeleting := false; typingSpeed := 150; typingText := shown |})
      else
        (Normal (typingSpeed s),
         {| textIndex := textIndex s; charIndex := index; isDeleting := isDeleting s;
            typingSpeed := typingSpeed s; typingText := shown |})
  end.

(** The state when [initTypingEffect] returns; [content] is what the host
    page wrote into the element. *)
Definition typingStart (content : string) : Typing :=
  {| textIndex := 0; charIndex := 0; isDeleting := false; typingSpeed := 150;
     typingText := content |}.

(** [k] calls of [type()], each scheduled by the one before: the delays
    requested, in order, and the state reached. A call that throws schedules
    nothing. *)
Fixpoint typeRun (k : nat) (s : Typing) : list nat * Typing :=
  match k with
  | O => ([], s)
  | S k' =>
      match type s with
      | (Normal delay, s') => let r := typeRun k' s' in (delay :: r.1, r.2)
      | (Throw _, s') => ([], s')
      end
  end.

(** The inline [display] of the navigation list and the [active] class of
    the toggle. *)
Record MobileMenu := {
  nav_display : string;
  menuToggle_active : bool
}.

(** The click listener of [.mobile-menu-toggle]. *)
Definition onMenuToggleClick (m : MobileMenu) : MobileMenu :=
  if bool_decide (nav_display m = "flex") then
    {| nav_display := "none"; menuToggle_active := false |}
  else
    {| nav_display := "flex"; menuToggle_active := true |}.

(** The state of the typing effect the script keeps up: the element shows
    the first [charIndex] characters of the current phrase; while typing the
    index is short of the phrase's length and the speed is 150, while
    deleting the index is at least 1 and the speed is 100. *)
Definition typingInvariant (s : Typing) : Prop :=
  exists phrase,
    texts !! textIndex s = Some phrase /\
    typingText s = substring0 phrase (charIndex s) /\
    if isDeleting s then
      (1 <= charIndex s <= Z.of_nat (String.length phrase))%Z /\ typingSpeed s = 100
    else
      (0 <= charIndex s < Z.of_nat (String.length phrase))%Z /\ typingSpeed s = 150.

(** The class lists with [active] on element [i] alone. *)
Definition onlyActive (n i : nat) : list bool := <[i := true]> (replicate n false).

End Landing.

(** ** The dashboard scripts

    [updateClock], the bar colours of the weekly chart, [getCookie]
    ([doctor_dashboard.js], [secretary_dashboard.js]) and
    [formatToLocalTime] ([secretary_dashboard.js]). A number is written by a
    template literal in decimal ([pretty]). *)

Module Dashboard.

(** [n < 10 ? "0" + n : n], as the template literal writes it. *)
Definition pad (n : nat) : string :=
  if n <? 10 then "0" +:+ pretty n else pretty n.

(** The text [updateClock] writes into [#digital-clock] when the clock
    reads [h] hours, [m] minutes and [s] seconds. *)
Definition clockText (h m s : nat) : string :=
  pad h +:+ ":" +:+ pad m +:+ ":" +:+ pad s.

(** The two elements [updateClock] writes, [None] when the page has no
    such element. *)
Record ClockDom := {
  clockElem : option string;
  dateElem : option string
}.

(** A reading of [new Date()]: its local time fields and what
    [toLocaleDateString('en-GB', opts)] gives for it. *)
Record Now := {
  now_hours : nat;
  now_minutes : nat;
  now_seconds : nat;
  now_localeDate : string
}.

(** [updateClock()] *)
Definition updateClock (now : Now) (dom : ClockDom) : ClockDom :=
  {| clockElem :=
       match clockElem dom with
       | Some _ => Some (clockText (now_hours now) (now_minutes now) (now_seconds now))
       | None => None
       end;
     dateElem :=
       match dateElem dom with
       | Some _ => Some (now_localeDate now)
       | None => None
       end |}.

(** A number as the getters of a [Date] give it: [NaN] for an invalid date. *)
Inductive JsNum :=
| NotANumber
| Num (n : nat).

(** [String(x)] *)
Definition numText (x : JsNum) : string :=
  match x with
  | NotANumber => "NaN"
  | Num n => pretty n
  end.

(** A [Date] built from a string: the fields [formatToLocalTime] reads. *)
Record DateValue := {
  getHours : JsNum;
  getMinutes : JsNum;
  toLocaleDateString : string
}.

(** [s.padStart(2, '0')] *)
Definition padStart2 (s : string) : string :=
  match String.length s with
  | 0 => "00"
  | 1 => "0" +:+ s
  | _ => s
  end.

(** [formatToLocalTime(utcString)], given the [Date] the string parses to:
    the [time] and the [date] of the result. *)
Definition formatToLocalTime (date : DateValue) : string * string :=
  let hours := getHours date in
  let minutes := padStart2 (numText (getMinutes date)) in
  let ampm :=
    match hours with
    | Num h => if 12 <=? h then "PM" else "AM"
    | NotANumber => "AM"
    end in
  let formattedHours :=
    match hours with
    | Num h => if h mod 12 =? 0 then Num 12 else Num (h mod 12)
    | NotANumber => Num 12
    end in
  (numText formattedHours +:+ ":" +:+ minutes +:+ " " +:+ ampm,
   toLocaleDateString date).

Definition pastelColors : list string :=
  ["#A3C8F7"; "#B8E0D2"; "#FFD6E0"; "#FFF5BA"; "#E2F0CB"; "#FFBCBC"; "#C1BFFF"].

(** [chartData.labels.map((_, i) => pastelColors[i % pastelColors.length])];
    [None] stands for [undefined]. *)
Definition barColors {A} (labels : list A) : list (option string) :=
  imap (fun i _ => pastelColors !! (i mod length pastelColors)) labels.

(** ASCII white space, as [trim] removes it. *)
Definition isSpace (c : ascii) : bool :=
  let n := N_of_ascii c in ((9 <=? n)%N && (n <=? 13)%N) || (n =? 32)%N.




(** [s.split(sep)] for a separator of one character. *)
Fixpoint split (sep : ascii) (s : string) : list string :=
  match s with
  | EmptyString => [EmptyString]
  | String c s' =>
      if Ascii.eqb c sep then EmptyString :: split sep s'
      else
        match split sep s' with
        | [] => [String c EmptyString]
        | x :: xs => String c x :: xs
        end
  end.

Section Cookies.

(** [decodeURIComponent]: the decoded text, or the [URIError] it throws on
    a malformed escape. *)
Variable decodeURIComponent : string -> Completion string.



End Cookies.


(** [s] contains none of the characters that satisfy [bad]. *)
Fixpoint avoids (bad : ascii -> bool) (s : string) : Prop :=
  match s with
  | EmptyString => True
  | String c s' => bad c = false /\ avoids bad s'
  end.

(** A cookie name or value: no semicolon and no white space. *)
Definition cookieToken (s : string) : Prop :=
  avoids (fun c => Ascii.eqb c ";" || isSpace c) s.



End Dashboard.

(** ** More sample data *)

Module Sample2.

(** A configuration whose call-next template has no [0]. *)
Definition windowWithoutPlaceholder : Window :=
  {| QUEUE_API := "/api/queues/";
     CALL_NEXT_API := "/api/call-next/";
     CSRF_TOKEN := "token" |}.



End Sample2.

(** * Properties *)

(** ** Strings *)

Module JsStringFacts.
Import JsString.

Lemma append_cons (c : ascii) (s t : string) : String c s +:+ t = String c (s +:+ t).
Proof. reflexivity. Qed.

Lemma append_empty (t : string) : "" +:+ t = t.
Proof. reflexivity. Qed.




Lemma lowerChar_idem (c : ascii) : lowerChar (lowerChar c) = lowerChar c.
Proof. destruct c as [[] [] [] [] [] [] [] []]; reflexivity. Qed.

Lemma toLowerCase_idem (s : string) : toLowerCase (toLowerCase s) = toLowerCase s.
Proof.
  induction s as [|c s IH]; simpl; [done |].
  by rewrite lowerChar_idem, IH.
Qed.







End JsStringFacts.

(** ** Filtering and rendering *)


(** A selection is determined by the list and the property. *)
Lemma Selection_functional {A} (P : A -> Prop) (l r1 r2 : list A) :
  Selection P l r1 -> Selection P l r2 -> r1 = r2.
Proof.
  intros H1. revert r2. induction H1; intros r2 H2; inversion H2; subst;
    try done; f_equal; auto.
Qed.




Lemma cardsOf_renderNodes (l : list DoctorQueueEntry) :
  cardsOf (renderNodes l) = List.map createDoctorCard l.
Proof.
  destruct l as [|d l]; [done |]. unfold renderNodes, cardsOf.
  generalize (d :: l). intros l'. induction l' as [|x l' IH]; simpl; [done | f_equal; exact IH].
Qed.

Lemma forEach_appendChild (l : list DoctorQueueEntry) (p : Page) :
  forEach l (fun doctor =>
    let card := createDoctorCard doctor in
    modify (fun p => set_queueContainer (queueContainer p ++ [CardNode card]) p)) p
  = (Normal tt,
     set_queueContainer
       (queueContainer p ++ List.map (fun doctor => CardNode (createDoctorCard doctor)) l) p).
Proof.
  revert p. induction l as [|d l IH]; intros p; simpl.
  - unfold ret, set_queueContainer. rewrite app_nil_r. by destruct p.
  - unfold bind, modify at 1. rewrite IH. f_equal.
    unfold set_queueContainer; simpl. by rewrite <- app_assoc.
Qed.

Lemma renderDoctors_run (p : Page) :
  renderDoctors p = (Normal tt, set_queueContainer (renderNodes (filteredDoctors p)) p).
Proof.
  unfold renderDoctors, bind, modify at 1, gets. simpl.
  destruct (filteredDoctors p) as [|d l] eqn:Hshown; simpl.
  - done.
  - exact (forEach_appendChild (d :: l) (set_queueContainer [] p)).
Qed.

Lemma filterDoctors_run (p : Page) :
  filterDoctors p =
  (Normal tt,
   set_queueContainer (projection (doctors p) (filterState p))
     (set_filteredDoctors
        (List.filter (matchesFilter (currentDepartment p)
                        (JsString.toLowerCase (searchInput_value p))) (doctors p)) p)).
Proof.
  unfold filterDoctors, bind, gets, modify. rewrite renderDoctors_run. done.
Qed.

(** ** The controller *)

Section ControllerFacts.

Variable window : Window.

Ltac js_unfold :=
  unfold runHandler, loadDoctors_resume, callNextPatient_resume,
    reportLoadError, reportCallError,
    loadDoctors_start, callNextPatient_start, onControlClick, onButtonClick,
    updateClock, showNotification, console_error, fetch, tryCatch, bind,
    awaitFetch, awaitJson, readQueues, readSuccess, throw, ret, modify, gets.

Ltac js_run := js_unfold; simpl; rewrite ?filterDoctors_run; simpl.

Lemma loadDoctors_resume_throws r e now p :
  RefreshThrows r e ->
  loadDoctors_resume r now p = reportLoadError e p.
Proof. by destruct 1. Qed.

Lemma loadDoctors_resume_silent now p :
  loadDoctors_resume (Fulfilled {| ok := true; body := Some (QueueValue None) |}) now p
  = (Normal tt, p).
Proof. done. Qed.

Lemma loadDoctors_resume_stores qs now p :
  loadDoctors_resume
    (Fulfilled {| ok := true; body := Some (QueueValue (Some qs)) |}) now p
  = (Normal tt,
     set_updateTime_text now
       (set_queueContainer (projection qs (filterState p))
          (set_filteredDoctors
             (List.filter (matchesFilter (currentDepartment p)
                             (JsString.toLowerCase (searchInput_value p))) qs)
             (set_doctorCount_text (length qs) (set_doctors qs p))))).
Proof. by js_run. Qed.

(** [loadDoctors] never lets an exception escape. *)
Lemma loadDoctors_resume_normal r now p :
  (loadDoctors_resume r now p).1 = Normal tt.
Proof.
  destruct r as [|[[] [[|[qs|]]|]]]; try done.
  by rewrite loadDoctors_resume_stores.
Qed.

Lemma callNextPatient_resume_throws doctorId r e p :
  CallThrows r e ->
  callNextPatient_resume window doctorId r p = reportCallError e p.
Proof. by destruct 1. Qed.

Lemma callNextPatient_resume_normal doctorId r p :
  (callNextPatient_resume window doctorId r p).1 = Normal tt.
Proof. by destruct r as [|[[] [[|[]]|]]]. Qed.

(** The failures that throw are reported the way the specification says. *)
Lemma throwing_refresh_is_reported r e now p :
  RefreshThrows r e -> failedRefreshReported r now p.
Proof.
  intros Hthrows. split; [by destruct Hthrows |].
  exists [ConsoleError "Error fetching queue data:" e;
          ShowNotification "System Error" "Failed to load queue data. Using cached data."].
  split; [| done].
  unfold afterRefresh, runHandler. rewrite (loadDoctors_resume_throws r e now p Hthrows).
  simpl. by rewrite <- app_assoc.
Qed.

Lemma throwing_call_is_reported doctorId r e p :
  CallThrows r e -> failedCallReported window doctorId r p.
Proof.
  intros Hthrows. unfold failedCallReported, afterCall, runHandler.
  rewrite (callNextPatient_resume_throws doctorId r e p Hthrows).
  split; [| done].
  exists [ConsoleError "Error calling next patient:" e;
          ShowNotification "System Error" "Failed to call next patient"].
  split; [| unfold notices; simpl; lia]. simpl. by rewrite <- app_assoc.
Qed.

(** A notice is shown when [showNotification] returns and is hidden again
    when one of the armed timers fires. *)
Lemma notice_is_transient (title message : string) (p : Page) :
  notification_show (runHandler (showNotification title message) p) = true /\
  notification_title (runHandler (showNotification title message) p) = title /\
  notification_message (runHandler (showNotification title message) p) = message /\
  exists hidden,
    step window (runHandler (showNotification title message) p) NotificationTimeout
    = Some hidden /\
    notification_show hidden = false.
Proof. simpl. repeat split. eexists. split; reflexivity. Qed.

(** [init] issues the first request for the queues. *)
Lemma init_starts_refresh (dom : Page) (now : string) :
  log (pageAfterInit window dom now) = [Fetch (queueRequest window)] /\
  pendingLoads (pageAfterInit window dom now) = 1 /\
  doctors (pageAfterInit window dom now) = [] /\
  currentDepartment (pageAfterInit window dom now) = "all" /\
  queueContainer (pageAfterInit window dom now) = queueContainer dom.
Proof. done. Qed.

(** Settling a pending refresh or call is a turn of the event loop. *)
Lemma step_QueueSettled (p : Page) (n : nat) r now :
  pendingLoads p = S n ->
  step window p (QueueSettled r now)
  = Some (afterRefresh r now (set_pending n (pendingCalls p) p)).
Proof. intros H. simpl. by rewrite H. Qed.

Lemma step_CallSettled (p : Page) (rest : list string) doctorId r :
  takeOut doctorId (pendingCalls p) = Some rest ->
  step window p (CallSettled doctorId r)
  = Some (afterCall window doctorId r (set_pending (pendingLoads p) rest p)).
Proof. intros H. simpl. by rewrite H. Qed.

(** Until the first render the container holds what the host page put
    there: a first refresh that fails leaves it as it is. *)
Lemma first_refresh_failure_keeps_host_content (dom : Page) (now later : string) r :
  RefreshFailure r ->
  exists p,
    step window (pageAfterInit window dom now) (QueueSettled r later) = Some p /\
    queueContainer p = queueContainer dom.
Proof. intros Hfail. eexists. split; [reflexivity |]. by destruct Hfail. Qed.

(** A turn that stores no snapshot keeps [doctors]; it either leaves the
    view and the filter state alone or renders the view anew. *)
Lemma step_without_fetch p ev p' :
  step window p ev = Some p' -> fetched ev = None ->
  doctors p' = doctors p /\
  ((queueContainer p' = queueContainer p /\ filterState p' = filterState p)
   \/ queueContainer p' = projection (doctors p') (filterState p')).
Proof.
  intros Hstep Hfetched. destruct ev as [|r now|dept|text|i|doctorId r|b|now| |];
    simpl in Hstep.
  - injection Hstep as <-. split; [done | by left].
  - destruct (pendingLoads p) as [|n]; [done |]. injection Hstep as <-.
    destruct r as [|[[] [[|[qs|]]|]]]; try done; split; try done; by left.
  - injection Hstep as <-. js_run. split; [done | by right].
  - injection Hstep as <-. js_run. split; [done | by right].
  - destruct (queueContainer p !! i) as [[|card|]|]; try done;
      try (injection Hstep as <-; split; [done | by left]).
    destruct (onCallClick card); injection Hstep as <-; split; try done; by left.
  - destruct (takeOut doctorId (pendingCalls p)) as [rest|]; [|done].
    injection Hstep as <-.
    destruct r as [|[[] [[|[]]|]]]; split; try done; by left.
  - injection Hstep as <-. destruct b; split; try done; by left.
  - injection Hstep as <-. split; [done | by left].
  - injection Hstep as <-. split; [done | by left].
  - destruct (notificationTimers p); [done |]. injection Hstep as <-.
    split; [done | by left].
Qed.

(** A turn that stores a snapshot renders it under the current filter. *)
Lemma step_with_fetch p ev p' S :
  step window p ev = Some p' -> fetched ev = Some S ->
  doctors p' = S /\ queueContainer p' = projection S (filterState p').
Proof.
  intros Hstep Hfetched. destruct ev as [|r now| | | | | | | |]; try done.
  destruct r as [|[[] [[|[qs|]]|]]]; try done.
  simpl in Hfetched. injection Hfetched as ->.
  simpl in Hstep. destruct (pendingLoads p) as [|n]; [done |].
  injection Hstep as <-. unfold runHandler.
  rewrite loadDoctors_resume_stores. done.
Qed.

Lemma run_snoc p evs ev p' :
  run window p (evs ++ [ev]) = Some p' <->
  exists p1, run window p evs = Some p1 /\ step window p1 ev = Some p'.
Proof.
  revert p. induction evs as [|e evs IH]; intros p; simpl.
  - split.
    + intros H. exists p. split; [done |]. by destruct (step window p ev).
    + intros (p1 & [= <-] & H). by rewrite H.
  - destruct (step window p e) as [q|]; [apply IH |].
    split; [done | by intros (? & ? & _)].
Qed.

Lemma latestSnapshot_snoc evs ev :
  latestSnapshot (evs ++ [ev]) =
  match fetched ev with
  | Some qs => Some qs
  | None => latestSnapshot evs
  end.
Proof. unfold latestSnapshot. by rewrite fold_left_app. Qed.


End ControllerFacts.

(** ** Cards *)

Lemma medicalCases_unknown (k : string) :
  k ∉ caseKinds -> medicalCases !! k = None.
Proof.
  unfold caseKinds, medicalCases. rewrite !not_elem_of_cons. intros (H1 & H2 & H3 & _).
  rewrite !lookup_insert_ne by done. apply lookup_empty.
Qed.

(** A case kind of the closed set renders as its label. *)
Lemma known_case_label (p : Patient) (k label : string) :
  patient_case p = Some k -> medicalCases !! k = Some label -> k ≠ "" ->
  caseLabelOf p = Text label.
Proof.
  intros Hk Hl Hne. unfold caseLabelOf, getProperty. rewrite Hk. simpl.
  rewrite bool_decide_eq_false_2 by done. simpl. by rewrite Hl.
Qed.

(** An absent or empty case kind renders as the empty text. *)
Lemma absent_case_label (p : Patient) :
  patient_case p = None \/ patient_case p = Some "" -> caseLabelOf p = Text "".
Proof. unfold caseLabelOf. by intros [-> | ->]. Qed.

(** Any other case kind renders as a text that is not empty. *)
Lemma unknown_case_label (p : Patient) (k : string) :
  patient_case p = Some k -> k ≠ "" -> k ∉ caseKinds ->
  caseLabelOf p = Text "undefined" \/ caseLabelOf p = NativeText k.
Proof.
  intros Hk Hne Hunknown. unfold caseLabelOf, getProperty. rewrite Hk. simpl.
  rewrite bool_decide_eq_false_2 by done. simpl.
  rewrite (medicalCases_unknown k Hunknown).
  destruct (bool_decide (k ∈ objectPrototypeKeys)); [by right | by left].
Qed.

(** C6. The specification has every case kind outside normal, urgent and
    followup rendered as the empty label. The card of a patient whose case
    kind is [emergency] shows the text [undefined] instead: the lookup
    [medicalCases[case]] gives [undefined] and the template writes it out. *)
Theorem unknown_case_renders_undefined :
  patient_case Sample.bob = Some "emergency" /\
  ("emergency" ∉ caseKinds) /\
  currentPatient Sample.drOkoye = Some Sample.bob /\
  queueContent (createDoctorCard Sample.drOkoye)
  = PatientDisplay "8" "Bob" (Text "undefined") "10:20".
Proof.
  repeat split. unfold caseKinds. rewrite !not_elem_of_cons.
  repeat split; try done. apply not_elem_of_nil.
Qed.

(** C7. A status that is none of available, in-session and on-break gets
    the label and the class of an available doctor. *)
Theorem unknown_status_renders_available (d : DoctorQueueEntry) :
  status d ≠ "available" -> status d ≠ "in-session" -> status d ≠ "on-break" ->
  statusText (createDoctorCard d) = "Available" /\
  forall d', status d' = "available" ->
    statusText (createDoctorCard d) = statusText (createDoctorCard d') /\
    statusClass (createDoctorCard d) = statusClass (createDoctorCard d').
Proof.
  intros H1 H2 H3. unfold createDoctorCard, statusBadge; simpl.
  rewrite !bool_decide_eq_false_2 by done. split; [done |].
  intros d' ->. done.
Qed.

Lemma unknown_status_renders_available_witness :
  statusText (createDoctorCard Sample.drKhan) = "Available" /\
  forall d', status d' = "available" ->
    statusText (createDoctorCard Sample.drKhan) = statusText (createDoctorCard d') /\
    statusClass (createDoctorCard Sample.drKhan) = statusClass (createDoctorCard d').
Proof.
  apply (unknown_status_renders_available Sample.drKhan); simpl; discriminate.
Defined.

(** C8. An entry without current patient shows the "No current patient"
    placeholder and no patient display; an entry without waiting list shows
    a waiting count of 0. *)
Theorem missing_patient_and_waiting_render_empty (d : DoctorQueueEntry) :
  (currentPatient d = None -> queueContent (createDoctorCard d) = NoCurrentPatient) /\
  (waiting d = None -> waitingCount (createDoctorCard d) = 0).
Proof. unfold createDoctorCard; simpl. split; by intros ->. Qed.

(** The placeholder is shown for no other entry. *)
Lemma placeholder_only_without_patient (d : DoctorQueueEntry) :
  queueContent (createDoctorCard d) = NoCurrentPatient <-> currentPatient d = None.
Proof. unfold createDoctorCard; simpl. by destruct (currentPatient d). Qed.

Example drKhan_card :
  queueContent (createDoctorCard Sample.drKhan) = NoCurrentPatient /\
  waitingCount (createDoctorCard Sample.drKhan) = 0 /\
  onCallClick (createDoctorCard Sample.drKhan) = None.
Proof. done. Qed.

(** ** The filtered view *)


(** ** Refresh, filter change and call-next *)

Section ControllerProperties.

Variable window : Window.


(** Consistency of the view with snapshot and filter state is kept by
    every turn, whatever the page started with. *)
Lemma viewConsistent_preserved (p0 p : Page) (evs : list Event) :
  viewConsistent p0 -> run window p0 evs = Some p -> viewConsistent p.
Proof.
  revert p0. induction evs as [|ev evs IH]; intros p0 Hinv Hrun; simpl in Hrun.
  - by injection Hrun as <-.
  - destruct (step window p0 ev) as [p1|] eqn:Hstep; [|done].
    apply (IH p1); [|done]. unfold viewConsistent in *.
    destruct (fetched ev) as [qs|] eqn:Hfetched.
    + destruct (step_with_fetch window p0 ev p1 qs Hstep Hfetched) as [-> ->]. done.
    + destruct (step_without_fetch window p0 ev p1 Hstep Hfetched)
        as [Hkept [[Hsame HF] | Hrendered]]; [|done].
      by rewrite Hkept, Hsame, HF.
Qed.




(** C9. A click on a department control or an edit of the search text
    updates the filter state and renders the view from the snapshot in
    memory; the snapshot is kept and no request is issued. *)
Theorem filter_change_rerenders_from_memory (p : Page) (dept text : string) :
  (exists p',
     step window p (DepartmentClick dept) = Some p' /\
     doctors p' = doctors p /\
     filterState p' = {| selectedDepartment := dept; searchText := searchInput_value p |} /\
     queueContainer p' = projection (doctors p) (filterState p') /\
     log p' = log p /\
     pendingLoads p' = pendingLoads p /\ pendingCalls p' = pendingCalls p) /\
  (exists p',
     step window p (SearchInput text) = Some p' /\
     doctors p' = doctors p /\
     filterState p' = {| selectedDepartment := currentDepartment p; searchText := text |} /\
     queueContainer p' = projection (doctors p) (filterState p') /\
     log p' = log p /\
     pendingLoads p' = pendingLoads p /\ pendingCalls p' = pendingCalls p).
Proof.
  split; eexists; (split; [reflexivity |]);
    unfold runHandler, onControlClick, bind, modify;
    rewrite filterDoctors_run; done.
Qed.

(** C10. [createDoctorCard] attaches the call-next listener exactly when
    the entry has a current patient, and the listener calls for that
    doctor; a click on the call-to-action of a card rendered for a doctor
    without current patient does nothing. *)
Theorem call_action_only_with_current_patient (d : DoctorQueueEntry) :
  (forall doctorId,
     onCallClick (createDoctorCard d) = Some doctorId ->
     is_Some (currentPatient d) /\ doctorId = doctor_id d) /\
  (is_Some (currentPatient d) -> onCallClick (createDoctorCard d) = Some (doctor_id d)) /\
  (currentPatient d = None ->
     onCallClick (createDoctorCard d) = None /\
     forall p i,
       queueContainer p !! i = Some (CardNode (createDoctorCard d)) ->
       step window p (CallClick i) = Some p).
Proof.
  unfold createDoctorCard. repeat split.
  - simpl in H. by destruct (currentPatient d).
  - simpl in H. destruct (currentPatient d); [by injection H | done].
  - intros [cp ->]. done.
  - by rewrite H.
  - intros p i Hnode. simpl. rewrite Hnode. simpl. by rewrite H.
Qed.

End ControllerProperties.

(** ** The sample session *)






(** The sample session, turn by turn: the first refresh shows all three
    doctors; the department and search filters leave Dr. Lee. *)
Example session_first_turns :
  (cardsOf ∘ queueContainer) <$> run Sample.window Sample.page (take 1 Sample.session)
  = Some (List.map createDoctorCard [Sample.drLee; Sample.drKhan; Sample.drOkoye]) /\
  (cardsOf ∘ queueContainer) <$> run Sample.window Sample.page (take 3 Sample.session)
  = Some [createDoctorCard Sample.drLee].
Proof. split; vm_compute; reflexivity. Qed.

(** With nothing to show, the container holds the "No Doctors Found" block. *)
Example session_no_match :
  queueContainer <$>
    run Sample.window Sample.page (take 1 Sample.session ++ [SearchInput "dentist"])
  = Some [NoDoctorsFound].
Proof. vm_compute; reflexivity. Qed.

(** * Further properties of the queue script *)

(** ** Narrowing the filter *)




Lemma filter_sublist_implies {A} (f g : A -> bool) (l : list A) :
  (forall x, f x = true -> g x = true) ->
  List.filter f l `sublist_of` List.filter g l.
Proof.
  intros Hfg. induction l as [|x l IH]; simpl; [constructor |].
  destruct (f x) eqn:Hf.
  - rewrite (Hfg x Hf). by constructor.
  - destruct (g x); [by constructor | done].
Qed.

Lemma filter_all {A} (f : A -> bool) (l : list A) :
  (forall x, f x = true) -> List.filter f l = l.
Proof.
  intros Hf. induction l as [|x l IH]; simpl; [done |]. by rewrite Hf, IH.
Qed.

Lemma filteredDoctors_after_filter (p : Page) :
  filteredDoctors (runHandler filterDoctors p)
  = List.filter (matchesFilter (currentDepartment p)
                   (JsString.toLowerCase (searchInput_value p))) (doctors p).
Proof. unfold runHandler. by rewrite filterDoctors_run. Qed.


(** X2. Whatever the search text, the entries shown for a department are
    among those shown for [all], in the same order, and each of them belongs
    to that department. *)
Theorem department_narrows (p : Page) (dept : string) :
  filteredDoctors (runHandler (onControlClick dept) p)
  `sublist_of` filteredDoctors (runHandler (onControlClick "all") p) /\
  (dept <> "all" ->
   Forall (fun e => department e = dept)
          (filteredDoctors (runHandler (onControlClick dept) p))).
Proof.
  unfold runHandler, onControlClick, bind, modify. rewrite !filterDoctors_run. simpl.
  split.
  - apply filter_sublist_implies. intros e. unfold matchesFilter.
    rewrite !andb_true_iff. intros [_ Hsearch]. split; [done | exact Hsearch].
  - intros Hne. apply Forall_forall. intros e He.
    apply list_elem_of_In, filter_In in He as [_ He]. unfold matchesFilter in He.
    apply andb_true_iff in He as [He _]. apply orb_true_iff in He as [He | He].
    + by apply bool_decide_eq_true in He.
    + by apply bool_decide_eq_true in He.
Qed.

(** X3. With department [all] and an empty search box every entry of the
    snapshot is shown, one card each, in snapshot order. *)
Theorem no_filter_shows_whole_snapshot (p : Page) :
  currentDepartment p = "all" -> searchInput_value p = "" ->
  filteredDoctors (runHandler filterDoctors p) = doctors p /\
  cardsOf (queueContainer (runHandler filterDoctors p))
  = List.map createDoctorCard (doctors p).
Proof.
  intros Hdept Htext.
  assert (filteredDoctors (runHandler filterDoctors p) = doctors p) as Hall.
  { rewrite filteredDoctors_after_filter, Hdept, Htext. by apply filter_all. }
  split; [done |]. revert Hall. unfold runHandler. rewrite filterDoctors_run. simpl.
  intros Hall. unfold projection. simpl. rewrite Hall. apply cardsOf_renderNodes.
Qed.


(** ** Turns of the event loop: effects and header fields *)

Section QueueTurns.

Variable window : Window.

Ltac turn_unfold :=
  unfold runHandler, callNextPatient_resume, loadDoctors_resume,
    reportLoadError, reportCallError,
    loadDoctors_start, callNextPatient_start, onControlClick, onButtonClick,
    updateClock, showNotification, console_error, fetch, tryCatch, bind,
    awaitFetch, awaitJson, readQueues, readSuccess, throw, ret, modify, gets;
  simpl; rewrite ?filterDoctors_run; simpl.

Ltac count_effects :=
  unfold uncaught, queueFetches, callFetches, notices, diagnostics;
  rewrite ?List.filter_app, ?length_app; simpl; lia.

(** What a turn appends to the log: no uncaught exception, and a request
    for the queues exactly on a refresh tick and on a successful call-next. *)
Lemma step_log (p : Page) (ev : Event) (p' : Page) :
  step window p ev = Some p' ->
  exists added,
    log p' = log p ++ added /\
    uncaught added = 0 /\
    queueFetches added = (if isRefreshTick ev || isSuccessfulCall ev then 1 else 0).
Proof.
  intros Hstep. destruct ev as [|r now|dept|text|i|doctorId r|b|now| |];
    simpl in Hstep.
  - injection Hstep as <-. by eexists [_].
  - destruct (pendingLoads p) as [|n]; [done |]. injection Hstep as <-.
    destruct r as [|[[] [[|[qs|]]|]]]; turn_unfold;
      first [ by exists [] ; rewrite app_nil_r
            | eexists [_; _]; by rewrite <- app_assoc ].
  - injection Hstep as <-. turn_unfold. exists []. by rewrite app_nil_r.
  - injection Hstep as <-. turn_unfold. exists []. by rewrite app_nil_r.
  - destruct (queueContainer p !! i) as [[|card|]|]; try done;
      try (injection Hstep as <-; exists []; by rewrite app_nil_r).
    destruct (onCallClick card); injection Hstep as <-.
    + by eexists [_].
    + exists []. by rewrite app_nil_r.
  - destruct (takeOut doctorId (pendingCalls p)) as [rest|]; [|done].
    injection Hstep as <-.
    destruct r as [|[[] [[|[]]|]]]; turn_unfold;
      first [ by exists [] ; rewrite app_nil_r
            | eexists [_; _]; by rewrite <- app_assoc ].
  - injection Hstep as <-. destruct b; by eexists [_].
  - injection Hstep as <-. exists []. by rewrite app_nil_r.
  - injection Hstep as <-. by eexists [_].
  - destruct (notificationTimers p); [done |]. injection Hstep as <-.
    exists []. by rewrite app_nil_r.
Qed.

(** X5. No turn of the event loop lets an exception escape: along every
    run the log gains no uncaught error. *)
Theorem no_exception_escapes (p0 p : Page) (evs : list Event) :
  run window p0 evs = Some p ->
  uncaught (log p) = uncaught (log p0).
Proof.
  revert p0. induction evs as [|ev evs IH]; intros p0 Hrun; simpl in Hrun.
  - by injection Hrun as <-.
  - destruct (step window p0 ev) as [p1|] eqn:Hstep; [|done].
    rewrite (IH p1 Hrun).
    destruct (step_log p0 ev p1 Hstep) as (added & -> & Hnone & _).
    unfold uncaught in *. rewrite List.filter_app, length_app. lia.
Qed.

(** X6. Along every run the script requests the queues once per refresh
    tick and once per successful call-next, and at no other occasion: not
    after a failure, not on a filter change. *)
Theorem queue_requested_once_per_tick_and_call (p0 p : Page) (evs : list Event) :
  run window p0 evs = Some p ->
  queueFetches (log p)
  = queueFetches (log p0) + countEvents isRefreshTick evs
    + countEvents isSuccessfulCall evs.
Proof.
  revert p0. induction evs as [|ev evs IH]; intros p0 Hrun; simpl in Hrun.
  - injection Hrun as <-. unfold countEvents. simpl. lia.
  - destruct (step window p0 ev) as [p1|] eqn:Hstep; [|done].
    rewrite (IH p1 Hrun).
    destruct (step_log p0 ev p1 Hstep) as (added & -> & _ & Hfetches).
    assert (isRefreshTick ev && isSuccessfulCall ev = false) as Hexcl
      by (by destruct ev).
    unfold countEvents, queueFetches in *. simpl.
    rewrite List.filter_app, length_app, Hfetches.
    destruct (isRefreshTick ev), (isSuccessfulCall ev); simpl in *; try done; lia.
Qed.

(** The header fields change only when a refresh stores a snapshot. *)
Lemma step_header (p : Page) (ev : Event) (p' : Page) :
  step window p ev = Some p' ->
  match fetched ev, fetchedAt ev with
  | Some qs, Some now =>
      doctorCount_text p' = length qs /\ updateTime_text p' = now
  | None, None =>
      doctorCount_text p' = doctorCount_text p /\
      updateTime_text p' = updateTime_text p
  | _, _ => False
  end.
Proof.
  intros Hstep. destruct ev as [|r now|dept|text|i|doctorId r|b|now| |];
    simpl in Hstep; simpl.
  - by injection Hstep as <-.
  - destruct (pendingLoads p) as [|n]; [done |]. injection Hstep as <-.
    destruct r as [|[[] [[|[qs|]]|]]]; turn_unfold; done.
  - injection Hstep as <-. by turn_unfold.
  - injection Hstep as <-. by turn_unfold.
  - destruct (queueContainer p !! i) as [[|card|]|]; try done;
      try (by injection Hstep as <-).
    destruct (onCallClick card); by injection Hstep as <-.
  - destruct (takeOut doctorId (pendingCalls p)) as [rest|]; [|done].
    injection Hstep as <-. by destruct r as [|[[] [[|[]]|]]].
  - injection Hstep as <-. by destruct b.
  - by injection Hstep as <-.
  - by injection Hstep as <-.
  - destruct (notificationTimers p); [done |]. by injection Hstep as <-.
Qed.

Lemma latestRefreshTime_snoc (evs : list Event) (ev : Event) :
  latestRefreshTime (evs ++ [ev]) =
  match fetchedAt ev with
  | Some now => Some now
  | None => latestRefreshTime evs
  end.
Proof. unfold latestRefreshTime. by rewrite fold_left_app. Qed.

(** X7. Once a refresh has succeeded, the doctor counter shows the size of
    the whole snapshot in memory (not of the filtered list) and the "last
    updated" field shows the clock reading of the most recent successful
    refresh; failed refreshes and filter changes leave both alone. *)
Theorem header_shows_latest_refresh
    (p0 p : Page) (evs : list Event) (S : list DoctorQueueEntry) :
  run window p0 evs = Some p ->
  latestSnapshot evs = Some S ->
  doctorCount_text p = length S /\
  doctorCount_text p = length (doctors p) /\
  latestRefreshTime evs = Some (updateTime_text p).
Proof.
  revert p S. induction evs as [|ev evs IH] using rev_ind; intros p S Hrun Hlatest.
  - done.
  - apply run_snoc in Hrun as (p1 & Hrun & Hstep).
    rewrite latestSnapshot_snoc in Hlatest. rewrite latestRefreshTime_snoc.
    pose proof (step_header p1 ev p Hstep) as Hheader.
    destruct (fetched ev) as [qs|] eqn:Hfetched.
    + injection Hlatest as <-.
      destruct (step_with_fetch window p1 ev p qs Hstep Hfetched) as [-> _].
      destruct (fetchedAt ev) as [now|]; [| done].
      destruct Hheader as [-> ->]. done.
    + destruct (fetchedAt ev) as [now|]; [done |].
      destruct Hheader as [-> ->].
      destruct (step_without_fetch window p1 ev p Hstep Hfetched) as [-> _].
      by apply IH.
Qed.

(** X8. A department click and a search edit commute: whichever comes
    first, the page ends the same. *)
Theorem filter_changes_commute (p : Page) (dept text : string) :
  run window p [DepartmentClick dept; SearchInput text]
  = run window p [SearchInput text; DepartmentClick dept].
Proof. simpl. turn_unfold. done. Qed.

(** X9. A filter change and the settlement of a pending refresh commute,
    whatever the answer is: a response that arrives while the user edits the
    filter gives the same page as one that arrives just before. *)
Theorem response_and_filter_change_commute
    (p : Page) (r : FetchResult QueueData) (now dept text : string) :
  run window p [QueueSettled r now; DepartmentClick dept]
  = run window p [DepartmentClick dept; QueueSettled r now] /\
  run window p [QueueSettled r now; SearchInput text]
  = run window p [SearchInput text; QueueSettled r now].
Proof.
  split; simpl; turn_unfold;
    (destruct (pendingLoads p) as [|n]; [done |]);
    destruct r as [|[[] [[|[qs|]]|]]]; turn_unfold; done.
Qed.

End QueueTurns.

(** ** The call-to-action of a card *)

Section CallToAction.

Variable window : Window.

Lemma renderNodes_lookup (shown : list DoctorQueueEntry) (i : nat) (d : DoctorQueueEntry) :
  shown !! i = Some d ->
  renderNodes shown !! i = Some (CardNode (createDoctorCard d)).
Proof.
  intros Hd. destruct shown as [|d0 l]; [done |]. unfold renderNodes.
  revert i Hd. generalize (d0 :: l). intros l'.
  induction l' as [|x l' IH]; intros [|i] Hd; simpl in *; try done.
  - by injection Hd as ->.
  - by apply IH.
Qed.

(** X10. A click on the call-to-action of the [i]-th card issues the
    call-next request for the doctor shown on that card, when that doctor
    has a current patient: one POST to that doctor's URL with the CSRF
    header, and nothing else changes on the page. *)
Theorem card_click_calls_its_doctor
    (p : Page) (shown : list DoctorQueueEntry) (i : nat)
    (d : DoctorQueueEntry) (cp : Patient) :
  queueContainer p = renderNodes shown ->
  shown !! i = Some d ->
  currentPatient d = Some cp ->
  exists p',
    step window p (CallClick i) = Some p' /\
    log p' = log p ++ [Fetch (callNextRequest window (doctor_id d))] /\
    pendingCalls p' = pendingCalls p ++ [doctor_id d] /\
    req_method (callNextRequest window (doctor_id d)) = POST /\
    ("X-CSRFToken", CSRF_TOKEN window) ∈ req_headers (callNextRequest window (doctor_id d)) /\
    doctors p' = doctors p /\ filterState p' = filterState p /\
    queueContainer p' = queueContainer p.
Proof.
  intros Hview Hd Hcp. eexists. split.
  - simpl. rewrite Hview, (renderNodes_lookup shown i d Hd). simpl.
    rewrite Hcp. reflexivity.
  - repeat split. simpl. apply list_elem_of_further, list_elem_of_here.
Qed.

(** The first occurrence of a character splits the text around it. *)
Lemma splitFirst_char (c : ascii) (pre post : string) :
  JsString.includes pre (String c "") = false ->
  JsString.splitFirst (String c "") (pre +:+ String c post) = Some (pre, post).
Proof.
  induction pre as [|a pre IH]; intros Hfree.
  - rewrite JsStringFacts.append_empty. simpl. by rewrite Ascii.eqb_refl.
  - rewrite JsStringFacts.append_cons. cbn [JsString.includes] in Hfree.
    apply orb_false_iff in Hfree as [Hhead Hrest].
    cbn [JsString.splitFirst]. simpl in Hhead. simpl.
    rewrite andb_true_r in Hhead. rewrite Hhead. simpl.
    specialize (IH Hrest). simpl in IH. by rewrite IH.
Qed.

Lemma splitFirst_absent (c : ascii) (s : string) :
  JsString.includes s (String c "") = false ->
  JsString.splitFirst (String c "") s = None.
Proof.
  induction s as [|a s IH]; intros Hfree.
  - done.
  - cbn [JsString.includes] in Hfree.
    apply orb_false_iff in Hfree as [Hhead Hrest].
    cbn [JsString.splitFirst]. rewrite Hhead. by rewrite (IH Hrest).
Qed.

(** A replacement text without [$] is inserted as it is. *)
Lemma getSubstitution_literal (matched before after repl : string) :
  JsString.includes repl "$" = false ->
  JsString.getSubstitution matched before after repl = repl.
Proof.
  induction repl as [|c r IH]; intros Hfree; [done |].
  cbn [JsString.includes] in Hfree.
  apply orb_false_iff in Hfree as [Hhead Hrest].
  simpl in Hhead. rewrite andb_true_r in Hhead.
  cbn [JsString.getSubstitution]. rewrite Hhead. by rewrite (IH Hrest).
Qed.

(** X11. The URL of a call-next request is the configured template with its
    first [0] replaced by the doctor id (an id without [$]): what stands
    before the first [0] and everything after it, further zeros included,
    is kept. *)
Theorem call_url_fills_first_zero (doctorId pre post : string) :
  CALL_NEXT_API window = pre +:+ "0" +:+ post ->
  JsString.includes pre "0" = false ->
  JsString.includes doctorId "$" = false ->
  req_url (callNextRequest window doctorId) = pre +:+ doctorId +:+ post.
Proof.
  intros Htemplate Hfirst Hplain. simpl. unfold JsString.replace.
  rewrite Htemplate, JsStringFacts.append_cons, JsStringFacts.append_empty.
  rewrite (splitFirst_char "0" pre post Hfirst).
  by rewrite getSubstitution_literal.
Qed.

(** X12. When the configured template contains no [0], the doctor id does
    not reach the URL: every call-next goes to the template itself. *)
Theorem call_url_without_placeholder (doctorId : string) :
  JsString.includes (CALL_NEXT_API window) "0" = false ->
  req_url (callNextRequest window doctorId) = CALL_NEXT_API window.
Proof.
  intros Hfree. simpl. unfold JsString.replace.
  by rewrite (splitFirst_absent "0" _ Hfree).
Qed.

(** X13. The hide timers of notices are never cancelled: when a second
    notice is shown while the timer of a first one is armed, the firing of
    that timer hides the second notice, whose own timer is still armed. *)
Theorem earlier_timer_hides_later_notice
    (p : Page) (title1 message1 title2 message2 : string) :
  notification_show
    (runHandler (showNotification title1 message1 ;; showNotification title2 message2)%js p)
  = true /\
  exists p',
    step window
      (runHandler (showNotification title1 message1 ;; showNotification title2 message2)%js p)
      NotificationTimeout = Some p' /\
    notification_title p' = title2 /\
    notification_message p' = message2 /\
    notification_show p' = false /\
    notificationTimers p' = S (notificationTimers p).
Proof. split; [done |]. by eexists. Qed.

End CallToAction.

(** X14. The case label of a current patient is empty exactly when the
    patient has no case kind or an empty one; every other case kind, known
    or not, puts some text into the label. *)
Theorem case_label_empty_iff_no_case (p : Patient) :
  caseLabelOf p = Text "" <-> patient_case p = None \/ patient_case p = Some "".
Proof.
  split; [| apply absent_case_label].
  unfold caseLabelOf, getProperty. destruct (patient_case p) as [k|]; [| by left].
  simpl. destruct (bool_decide (k = "")) eqn:Hk.
  - apply bool_decide_eq_true in Hk as ->. by right.
  - simpl. unfold medicalCases.
    destruct (decide (k = "normal")) as [-> | H1]; [done |].
    destruct (decide (k = "urgent")) as [-> | H2]; [done |].
    destruct (decide (k = "followup")) as [-> | H3]; [done |].
    rewrite !lookup_insert_ne, lookup_empty by done.
    by destruct (bool_decide (k ∈ objectPrototypeKeys)).
Qed.

(** * The landing page widgets *)

Module LandingFacts.
Import Landing.

Lemma map_false_replicate (l : list bool) :
  List.map (fun _ => false) l = replicate (length l) false.
Proof. induction l as [|b l IH]; simpl; [done | by rewrite IH]. Qed.

Lemma onlyActive_length (n i : nat) : length (onlyActive n i) = n.
Proof. unfold onlyActive. by rewrite length_insert, length_replicate. Qed.

(** In [onlyActive n i] element [i] carries [active] and no other does. *)
Lemma onlyActive_lookup (n i j : nat) :
  i < n -> j < n -> onlyActive n i !! j = Some (bool_decide (j = i)).
Proof.
  intros Hi Hj. unfold onlyActive. destruct (decide (j = i)) as [-> | Hne].
  - rewrite list_lookup_insert_eq by (by rewrite length_replicate).
    by rewrite bool_decide_eq_true_2.
  - rewrite list_lookup_insert_ne by done.
    rewrite lookup_replicate_2 by done. by rewrite bool_decide_eq_false_2.
Qed.

Lemma animateProcess_in_range (s : AIDemo) :
  currentStep s < length (processSteps s) ->
  animateProcess s =
  (Normal tt,
   {| processSteps := onlyActive (length (processSteps s)) (currentStep s);
      currentStep := (currentStep s + 1) mod length (processSteps s) |}).
Proof.
  intros Hc. unfold animateProcess, onlyActive. rewrite map_false_replicate.
  rewrite lookup_replicate_2 by done. by rewrite length_replicate.
Qed.

Lemma aiDemoTicks_from (k : nat) (s : AIDemo) :
  currentStep s < length (processSteps s) ->
  aiDemoTicks (S k) s =
  {| processSteps := onlyActive (length (processSteps s))
                       ((currentStep s + k) mod length (processSteps s));
     currentStep := (currentStep s + S k) mod length (processSteps s) |}.
Proof.
  revert s. induction k as [|k IH]; intros s Hc.
  - simpl. rewrite (animateProcess_in_range s Hc). simpl.
    by rewrite Nat.add_0_r, (Nat.mod_small _ _ Hc).
  - change (aiDemoTicks (S (S k)) s) with (aiDemoTicks (S k) (animateProcess s).2).
    rewrite (animateProcess_in_range s Hc). cbn [snd].
    rewrite IH; cbn [processSteps currentStep]; rewrite onlyActive_length.
    + rewrite !Nat.Div0.add_mod_idemp_l.
      replace (currentStep s + 1 + k) with (currentStep s + S k) by lia.
      replace (currentStep s + 1 + S k) with (currentStep s + S (S k)) by lia.
      done.
    + apply Nat.mod_upper_bound. lia.
Qed.

(** X15. The AI demo, on a page with at least one process step: after the
    [k+1]-th tick exactly the step [k mod n] is active, whatever classes the
    page started with, and no tick throws. The steps light up in order,
    starting with the first, and wrap around. *)
Theorem ai_demo_cycles (steps : list bool) (k : nat) :
  steps <> [] ->
  aiDemoTicks (S k) {| processSteps := steps; currentStep := 0 |}
  = {| processSteps := onlyActive (length steps) (k mod length steps);
       currentStep := S k mod length steps |} /\
  (animateProcess (aiDemoTicks k {| processSteps := steps; currentStep := 0 |})).1
  = Normal tt.
Proof.
  intros Hsteps.
  assert (0 < length steps) as Hn by (destruct steps; [done | simpl; lia]).
  split.
  - by rewrite aiDemoTicks_from.
  - destruct k as [|k].
    + simpl. by rewrite animateProcess_in_range.
    + rewrite aiDemoTicks_from by done. rewrite animateProcess_in_range; [done |].
      cbn [processSteps currentStep]. rewrite onlyActive_length.
      apply Nat.mod_upper_bound. simpl. lia.
Qed.

(** X16. On a page without process steps every tick of the AI demo throws a
    [TypeError] and changes nothing. *)
Theorem ai_demo_without_steps (k c : nat) :
  (animateProcess {| processSteps := []; currentStep := c |}).1 = Throw TypeError /\
  aiDemoTicks k {| processSteps := []; currentStep := c |}
  = {| processSteps := []; currentStep := c |}.
Proof. split; [done |]. induction k as [|k IH]; [done | exact IH]. Qed.

Lemma organTick_from (s : OrganPreview) (c : nat) :
  currentIndex s = Index c -> 0 < length (organs s) ->
  organTick s =
  (Normal tt,
   {| organs := onlyActive (length (organs s)) ((c + 1) mod length (organs s));
      currentIndex := Index ((c + 1) mod length (organs s)) |}).
Proof.
  intros Hc Hn. unfold organTick, activateOrgan, nextIndex, onlyActive. rewrite Hc.
  destruct (length (organs s)) as [|n] eqn:Hlen; [lia |].
  rewrite map_false_replicate, Hlen.
  rewrite lookup_replicate_2 by (apply Nat.mod_upper_bound; lia). done.
Qed.

Lemma organTicks_from (k : nat) (s : OrganPreview) (c : nat) :
  currentIndex s = Index c -> 0 < length (organs s) ->
  organTicks (S k) s =
  {| organs := onlyActive (length (organs s)) ((c + S k) mod length (organs s));
     currentIndex := Index ((c + S k) mod length (organs s)) |}.
Proof.
  revert s c. induction k as [|k IH]; intros s c Hc Hn.
  - change (organTicks 1 s) with (organTick s).2.
    by rewrite (organTick_from s c Hc Hn).
  - change (organTicks (S (S k)) s) with (organTicks (S k) (organTick s).2).
    rewrite (organTick_from s c Hc Hn). cbn [snd].
    rewrite (IH _ ((c + 1) mod length (organs s)));
      cbn [organs currentIndex]; rewrite ?onlyActive_length; try done.
    rewrite !Nat.Div0.add_mod_idemp_l.
    replace (c + 1 + S k) with (c + S (S k)) by lia. done.
Qed.

(** X17. The organ preview, on a page with at least one organ: after the
    [k]-th tick ([k >= 1]) exactly the organ [k mod n] is active. The first
    tick lights the second organ, not the first; with a single organ every
    tick lights it again. *)
Theorem organ_preview_cycles (os : list bool) (k : nat) :
  os <> [] ->
  organTicks (S k) {| organs := os; currentIndex := Index 0 |}
  = {| organs := onlyActive (length os) (S k mod length os);
       currentIndex := Index (S k mod length os) |}.
Proof.
  intros Hos.
  assert (0 < length os) as Hn by (destruct os; [done | simpl; lia]).
  by rewrite (organTicks_from k _ 0).
Qed.

(** X18. On a page without organs the first tick turns [currentIndex] into
    [NaN]; that tick and every later one throw a [TypeError]. *)
Theorem organ_preview_without_organs (k : nat) (i : JsIndex) :
  organTicks (S k) {| organs := []; currentIndex := i |}
  = {| organs := []; currentIndex := NaN |} /\
  (organTick (organTicks k {| organs := []; currentIndex := i |})).1 = Throw TypeError.
Proof.
  assert (forall j, organTick {| organs := []; currentIndex := j |}
                    = (Throw TypeError, {| organs := []; currentIndex := NaN |})) as Htick
    by (by intros [|c]).
  assert (forall n, organTicks n {| organs := []; currentIndex := NaN |}
                    = {| organs := []; currentIndex := NaN |}) as Hstay.
  { induction n as [|n IH]; [done |]. cbn [organTicks]. by rewrite Htick. }
  split.
  - cbn [organTicks]. by rewrite Htick, Hstay.
  - destruct k as [|k]; cbn [organTicks]; [by rewrite Htick |].
    by rewrite Htick, Hstay, Htick.
Qed.

Lemma texts_nonempty (i : nat) (phrase : string) :
  texts !! i = Some phrase -> 0 < String.length phrase.
Proof.
  destruct i as [|[|[|[|i]]]]; simpl; intros H; try done;
    injection H as <-; simpl; lia.
Qed.

Lemma substring0_zero (s : string) : substring0 s 0 = "".
Proof. by destruct s. Qed.

(** One call of [type()] from a state whose indices are in range: it does
    not throw and establishes the invariant, whatever the element showed. *)
Lemma type_establishes_invariant (s : Typing) (phrase : string) :
  texts !! textIndex s = Some phrase ->
  (if isDeleting s then
     (1 <= charIndex s <= Z.of_nat (String.length phrase))%Z /\ typingSpeed s = 100
   else
     (0 <= charIndex s < Z.of_nat (String.length phrase))%Z /\ typingSpeed s = 150) ->
  exists delay, (type s).1 = Normal delay /\ typingInvariant (type s).2.
Proof.
  intros Hphrase Hrange. unfold type. rewrite Hphrase.
  destruct (isDeleting s) eqn:Hdel; simpl.
  - destruct Hrange as [Hc Hspeed].
    destruct (bool_decide (charIndex s - 1 = 0)%Z) eqn:Hzero.
    + apply bool_decide_eq_true in Hzero. eexists. split; [done |].
      assert (is_Some (texts !! ((textIndex s + 1) mod length texts))) as [next Hnext].
      { apply lookup_lt_is_Some. apply Nat.mod_upper_bound. simpl. lia. }
      exists next. simpl. split; [done |]. rewrite Hzero.
      split; [by rewrite !substring0_zero |].
      apply texts_nonempty in Hnext. lia.
    + apply bool_decide_eq_false in Hzero. eexists. split; [done |].
      exists phrase. simpl. repeat split; try done; lia.
  - destruct Hrange as [Hc Hspeed].
    destruct (bool_decide (charIndex s + 1 = Z.of_nat (String.length phrase))%Z) eqn:Hfull.
    + apply bool_decide_eq_true in Hfull. eexists. split; [done |].
      exists phrase. simpl. repeat split; try done; lia.
    + apply bool_decide_eq_false in Hfull. eexists. split; [done |].
      exists phrase. simpl. repeat split; try done; lia.
Qed.

Lemma typeRun_step (k : nat) (s s' : Typing) (delay : nat) :
  type s = (Normal delay, s') ->
  typeRun (S k) s = (delay :: (typeRun k s').1, (typeRun k s').2).
Proof. intros H. unfold typeRun; fold typeRun. by rewrite H. Qed.

Lemma typeRun_keeps_invariant (k : nat) (s : Typing) (phrase : string) :
  texts !! textIndex s = Some phrase ->
  (if isDeleting s then
     (1 <= charIndex s <= Z.of_nat (String.length phrase))%Z /\ typingSpeed s = 100
   else
     (0 <= charIndex s < Z.of_nat (String.length phrase))%Z /\ typingSpeed s = 150) ->
  length (typeRun (S k) s).1 = S k /\ typingInvariant (typeRun (S k) s).2.
Proof.
  revert s phrase. induction k as [|k IH]; intros s phrase Hphrase Hrange;
    destruct (type_establishes_invariant s phrase Hphrase Hrange) as (delay & Hd & Hinv);
    destruct (type s) as [c s'] eqn:Htype; cbn [fst snd] in Hd, Hinv; subst c;
    rewrite (typeRun_step _ s s' delay Htype); cbn [fst snd].
  - done.
  - destruct Hinv as (next & Hnext & _ & Hnextrange).
    destruct (IH s' next Hnext Hnextrange) as [Hlen Hinv']. split; [| done].
    cbn [length]. by rewrite Hlen.
Qed.

(** X19. The typing effect never runs out of its phrases: whatever the
    element showed at first, every call of [type()] returns normally and
    schedules the next one, and after each call the element shows the
    first [charIndex] characters of the current phrase, with [charIndex]
    between 0 and the length of that phrase. *)
Theorem typing_effect_invariant (content : string) (k : nat) :
  length (typeRun (S k) (typingStart content)).1 = S k /\
  typingInvariant (typeRun (S k) (typingStart content)).2.
Proof.
  apply (typeRun_keeps_invariant k (typingStart content) "Management Platform"); [done |].
  simpl. split; [lia | done].
Qed.

(** X20. Each phrase is typed and erased in turn. From the empty display at
    the start of a phrase of [n] characters, [n] calls type it out at 150 ms
    per character and the full phrase then stays for 1000 ms; [n] more calls
    erase it at 100 ms per character and after a pause of 500 ms the next
    phrase starts, the first one following the last. *)
Theorem phrase_typed_then_erased (i : nat) (phrase : string) :
  texts !! i = Some phrase ->
  typeRun (String.length phrase)
    {| textIndex := i; charIndex := 0; isDeleting := false; typingSpeed := 150;
       typingText := "" |}
  = (replicate (String.length phrase - 1) 150 ++ [1000],
     {| textIndex := i; charIndex := Z.of_nat (String.length phrase);
        isDeleting := true; typingSpeed := 100; typingText := phrase |}) /\
  typeRun (2 * String.length phrase)
    {| textIndex := i; charIndex := 0; isDeleting := false; typingSpeed := 150;
       typingText := "" |}
  = (replicate (String.length phrase - 1) 150 ++ [1000]
       ++ replicate (String.length phrase - 1) 100 ++ [500],
     {| textIndex := (i + 1) mod length texts; charIndex := 0; isDeleting := false;
        typingSpeed := 150; typingText := "" |}).
Proof.
  destruct i as [|[|[|[|i]]]]; simpl; intros H; try done;
    injection H as <-; split; vm_compute; reflexivity.
Qed.

(** X21. The mobile menu: after any click the navigation list is either
    [flex] with the toggle active or [none] with the toggle inactive, and
    from then on clicks alternate between the two; a list that was not
    [flex] (whatever else it was) is opened by the first click. *)
Theorem mobile_menu_alternates (m : MobileMenu) :
  (nav_display m <> "flex" ->
   onMenuToggleClick m = {| nav_display := "flex"; menuToggle_active := true |}) /\
  (nav_display m = "flex" ->
   onMenuToggleClick m = {| nav_display := "none"; menuToggle_active := false |}) /\
  (menuToggle_active (onMenuToggleClick m) = true
   <-> nav_display (onMenuToggleClick m) = "flex") /\
  onMenuToggleClick (onMenuToggleClick (onMenuToggleClick m)) = onMenuToggleClick m /\
  onMenuToggleClick (onMenuToggleClick m) <> onMenuToggleClick m.
Proof.
  unfold onMenuToggleClick. destruct (bool_decide (nav_display m = "flex")) eqn:H.
  - apply bool_decide_eq_true in H. repeat split; try done.
  - apply bool_decide_eq_false in H. repeat split; try done.
Qed.

End LandingFacts.

(** * The dashboard scripts *)

Module DashboardFacts.
Import Dashboard.

Lemma below_by_cases (P : nat -> Prop) (n : nat) (f : nat -> bool) :
  (forall k, f k = true -> P k) ->
  forallb f (seq 0 n) = true ->
  forall k, k < n -> P k.
Proof.
  intros HP Hall k Hk. apply HP.
  rewrite forallb_forall in Hall. apply Hall, in_seq. lia.
Qed.

Lemma pad_length : forall n, n < 100 -> String.length (pad n) = 2.
Proof.
  apply (below_by_cases (fun n => String.length (pad n) = 2) 100
           (fun k => String.length (pad k) =? 2)).
  - intros k. apply Nat.eqb_eq.
  - vm_compute. reflexivity.
Qed.

Lemma pad_two_chars (n : nat) :
  n < 100 -> exists a b, pad n = String a (String b "").
Proof.
  intros Hn. pose proof (pad_length n Hn) as Hlen.
  destruct (pad n) as [|a [|b [|c s]]]; try done. by exists a, b.
Qed.

Lemma pad_inj : forall n, n < 100 -> forall n', n' < 100 -> pad n = pad n' -> n = n'.
Proof.
  apply (below_by_cases (fun n => forall n', n' < 100 -> pad n = pad n' -> n = n') 100
           (fun k => forallb (fun k' => implb (bool_decide (pad k = pad k')) (k =? k'))
                             (seq 0 100))).
  - intros k Hk.
    apply (below_by_cases (fun n' => pad k = pad n' -> k = n') 100
             (fun k' => implb (bool_decide (pad k = pad k')) (k =? k'))); [| exact Hk].
    intros k' H Heq. rewrite bool_decide_eq_true_2 in H by done. simpl in H.
    by apply Nat.eqb_eq.
  - vm_compute. reflexivity.
Qed.

Lemma padStart2_pretty : forall n, n < 100 -> padStart2 (pretty n) = pad n.
Proof.
  apply (below_by_cases (fun n => padStart2 (pretty n) = pad n) 100
           (fun k => bool_decide (padStart2 (pretty k) = pad k))).
  - intros k. apply bool_decide_eq_true.
  - vm_compute. reflexivity.
Qed.


Lemma hour_prefix_inj (H H' : nat) (r r' : string) :
  1 <= H <= 12 -> 1 <= H' <= 12 ->
  pretty H +:+ ":" +:+ r = pretty H' +:+ ":" +:+ r' ->
  H = H' /\ r = r'.
Proof.
  intros [H1 H12] [H1' H12'] Heq.
  destruct H as [|[|[|[|[|[|[|[|[|[|[|[|[|H]]]]]]]]]]]]]; try lia;
    destruct H' as [|[|[|[|[|[|[|[|[|[|[|[|[|H']]]]]]]]]]]]]; try lia;
    vm_compute in Heq; by simplify_eq.
Qed.

Lemma mod12_of_hour (h : nat) :
  h < 24 -> h mod 12 = if 12 <=? h then h - 12 else h.
Proof.
  intros Hh. destruct (12 <=? h) eqn:Hhalf.
  - apply Nat.leb_le in Hhalf. replace h with (h - 12 + 1 * 12) at 1 by lia.
    rewrite Nat.Div0.mod_add. apply Nat.mod_small. lia.
  - apply Nat.leb_gt in Hhalf. by apply Nat.mod_small.
Qed.

(** X23. [formatToLocalTime] writes a valid time of day on the 12-hour
    clock: an hour from 1 to 12 without padding, the minutes padded to two
    digits, then AM before noon and PM from noon on (midnight and noon show
    as 12); two different times of day are never written the same way, and
    the date is what [toLocaleDateString] gives. *)
Theorem twelve_hour_time (h m h' m' : nat) (text text' : string) :
  h < 24 -> m < 60 -> h' < 24 -> m' < 60 ->
  (exists H,
     1 <= H <= 12 /\ (H = 12 <-> h mod 12 = 0) /\ (H < 12 -> H = h mod 12) /\
     formatToLocalTime
       {| getHours := Num h; getMinutes := Num m; toLocaleDateString := text |}
     = (pretty H +:+ ":" +:+ pad m +:+ " " +:+ (if 12 <=? h then "PM" else "AM"), text)) /\
  ((formatToLocalTime
      {| getHours := Num h; getMinutes := Num m; toLocaleDateString := text |}).1
   = (formatToLocalTime
        {| getHours := Num h'; getMinutes := Num m'; toLocaleDateString := text' |}).1 ->
   h = h' /\ m = m').
Proof.
  intros Hh Hm Hh' Hm'. unfold formatToLocalTime. cbn [getHours getMinutes numText fst].
  rewrite !padStart2_pretty by lia.
  pose proof (mod12_of_hour h Hh) as Hmod. pose proof (mod12_of_hour h' Hh') as Hmod'.
  split.
  - exists (if h mod 12 =? 0 then 12 else h mod 12).
    destruct (h mod 12 =? 0) eqn:Hz.
    + apply Nat.eqb_eq in Hz. repeat split; try done; lia.
    + apply Nat.eqb_neq in Hz.
      assert (h mod 12 < 12) by (apply Nat.mod_upper_bound; lia).
      repeat split; try done; lia.
  - intros Heq.
    assert (h mod 12 < 12) by (apply Nat.mod_upper_bound; lia).
    assert (h' mod 12 < 12) by (apply Nat.mod_upper_bound; lia).
    assert (forall x, numText (if x mod 12 =? 0 then Num 12 else Num (x mod 12))
                      = pretty (if x mod 12 =? 0 then 12 else x mod 12)) as Htext
      by (intros x; by destruct (x mod 12 =? 0)).
    rewrite !Htext in Heq.
    apply hour_prefix_inj in Heq as [HH Hrest];
      [| destruct (h mod 12 =? 0) eqn:E; [lia | apply Nat.eqb_neq in E; lia]
       | destruct (h' mod 12 =? 0) eqn:E; [lia | apply Nat.eqb_neq in E; lia]].
    destruct (pad_two_chars m) as (b1 & b2 & Eb); [lia |].
    destruct (pad_two_chars m') as (b1' & b2' & Eb'); [lia |].
    rewrite Eb, Eb' in Hrest.
    rewrite !JsStringFacts.append_cons, !JsStringFacts.append_empty in Hrest.
    assert (m = m') as ->.
    { apply pad_inj; [lia | lia |]. rewrite Eb, Eb'. by simplify_eq. }
    split; [| done].
    assert ((12 <=? h) = (12 <=? h')) as Hhalf.
    { destruct (12 <=? h), (12 <=? h'); by simplify_eq. }
    assert (h mod 12 = h' mod 12) as Hsame.
    { destruct (Nat.eqb_spec (h mod 12) 0), (Nat.eqb_spec (h' mod 12) 0); lia. }
    rewrite Hmod, Hmod' in Hsame.
    destruct (Nat.leb_spec 12 h), (Nat.leb_spec 12 h'); try discriminate Hhalf; lia.
Qed.

(** X24. The bars of the weekly chart: one colour per label, each taken
    from the palette (never [undefined]), the palette repeating every seven
    bars. *)
Theorem bar_colors_cycle {A} (labels : list A) :
  length (barColors labels) = length labels /\
  forall i, i < length labels ->
    exists colour,
      barColors labels !! i = Some (Some colour) /\
      colour ∈ pastelColors /\
      (i + 7 < length labels -> barColors labels !! (i + 7) = Some (Some colour)).
Proof.
  unfold barColors. change (length pastelColors) with 7.
  split; [apply length_imap |].
  intros i Hi.
  assert (is_Some (pastelColors !! (i mod 7))) as [colour Hcolour].
  { apply lookup_lt_is_Some. change (length pastelColors) with 7.
    apply Nat.mod_upper_bound. lia. }
  exists colour. rewrite !list_lookup_imap.
  destruct (lookup_lt_is_Some_2 labels i Hi) as [x Hx]. rewrite Hx.
  change (Some (pastelColors !! (i mod 7)) = Some (Some colour) /\
          colour ∈ pastelColors /\
          (i + 7 < length labels ->
           (fun _ : A => pastelColors !! ((i + 7) mod 7)) <$> labels !! (i + 7)
           = Some (Some colour))).
  rewrite Hcolour. split; [done |]. split; [by eapply list_elem_of_lookup_2 |].
  intros Hi7. destruct (lookup_lt_is_Some_2 labels (i + 7) Hi7) as [y Hy]. rewrite Hy.
  change (Some (pastelColors !! ((i + 7) mod 7)) = Some (Some colour)).
  replace (i + 7) with (i + 1 * 7) by lia. by rewrite Nat.Div0.mod_add, Hcolour.
Qed.

(** ** Cookies *)

Section CookieFacts.

Variable decodeURIComponent : string -> Completion string.





Lemma split_token (s : string) : cookieToken s -> split ";" s = [s].
Proof.
  induction s as [|c s IH]; [done |]. intros [Hc Hs]. simpl.
  apply orb_false_iff in Hc as [-> _]. by rewrite (IH Hs).
Qed.

Lemma split_token_append (s t : string) :
  cookieToken s -> split ";" (s +:+ String ";" t) = s :: split ";" t.
Proof.
  induction s as [|c s IH]; intros Hs.
  - rewrite JsStringFacts.append_empty. done.
  - destruct Hs as [Hc Hs]. rewrite JsStringFacts.append_cons. simpl.
    apply orb_false_iff in Hc as [-> _]. by rewrite (IH Hs).
Qed.















End CookieFacts.
End DashboardFacts.

(** * The further properties on sample data *)


Lemma no_filter_shows_whole_snapshot_witness :
  currentDepartment Sample.final = "all" /\
  searchInput_value Sample.final = "" /\
  filteredDoctors (runHandler filterDoctors Sample.final) = doctors Sample.final.
Proof.
  split; [vm_compute; reflexivity |]. split; [vm_compute; reflexivity |].
  apply (no_filter_shows_whole_snapshot Sample.final); vm_compute; reflexivity.
Defined.

Lemma no_exception_escapes_witness :
  run Sample.window Sample.page Sample.session = Some Sample.final /\
  uncaught (log Sample.final) = uncaught (log Sample.page).
Proof.
  split; [vm_compute; reflexivity |].
  apply (no_exception_escapes Sample.window Sample.page Sample.final Sample.session).
  vm_compute; reflexivity.
Defined.

Lemma queue_requested_once_per_tick_and_call_witness :
  run Sample.window Sample.page Sample.session = Some Sample.final /\
  queueFetches (log Sample.final)
  = queueFetches (log Sample.page) + countEvents isRefreshTick Sample.session
    + countEvents isSuccessfulCall Sample.session.
Proof.
  split; [vm_compute; reflexivity |].
  apply (queue_requested_once_per_tick_and_call
           Sample.window Sample.page Sample.final Sample.session).
  vm_compute; reflexivity.
Defined.

Lemma header_shows_latest_refresh_witness :
  run Sample.window Sample.page Sample.session = Some Sample.final /\
  doctorCount_text Sample.final = 2 /\
  latestRefreshTime Sample.session = Some (updateTime_text Sample.final).
Proof.
  split; [vm_compute; reflexivity |].
  pose proof (header_shows_latest_refresh Sample.window Sample.page Sample.final
                Sample.session [Sample.drKhan; Sample.drLee]) as H.
  destruct H as (Hcount & _ & Htime); [vm_compute; reflexivity .. |].
  split; [exact Hcount | exact Htime].
Defined.

Lemma card_click_calls_its_doctor_witness :
  exists p',
    step Sample.window Sample.final (CallClick 1) = Some p' /\
    log p' = log Sample.final ++ [Fetch (callNextRequest Sample.window "42")].
Proof.
  destruct (card_click_calls_its_doctor Sample.window Sample.final
              [Sample.drKhan; Sample.drLee] 1 Sample.drLee Sample.ann)
    as (p' & Hstep & Hlog & _); [vm_compute; reflexivity .. |].
  exists p'. split; [exact Hstep | exact Hlog].
Defined.

Lemma call_url_fills_first_zero_witness :
  req_url (callNextRequest Sample.window "42") = "/api/queues/42/call-next/".
Proof.
  apply (call_url_fills_first_zero Sample.window "42" "/api/queues/" "/call-next/");
    vm_compute; reflexivity.
Defined.

Lemma call_url_without_placeholder_witness :
  req_url (callNextRequest Sample2.windowWithoutPlaceholder "42") = "/api/call-next/".
Proof.
  apply (call_url_without_placeholder Sample2.windowWithoutPlaceholder "42").
  vm_compute; reflexivity.
Defined.

Lemma ai_demo_cycles_witness :
  Landing.aiDemoTicks 5 {| Landing.processSteps := [true; true; false];
                           Landing.currentStep := 0 |}
  = {| Landing.processSteps := [false; true; false]; Landing.currentStep := 2 |}.
Proof.
  apply (LandingFacts.ai_demo_cycles [true; true; false] 4). discriminate.
Defined.

Lemma organ_preview_cycles_witness :
  Landing.organTicks 1 {| Landing.organs := [true; false; false];
                          Landing.currentIndex := Landing.Index 0 |}
  = {| Landing.organs := [false; true; false];
       Landing.currentIndex := Landing.Index 1 |}.
Proof.
  apply (LandingFacts.organ_preview_cycles [true; false; false] 0). discriminate.
Defined.

Lemma phrase_typed_then_erased_witness :
  (Landing.typeRun 11
     {| Landing.textIndex := 2; Landing.charIndex := 0; Landing.isDeleting := false;
        Landing.typingSpeed := 150; Landing.typingText := "" |}).2
  = {| Landing.textIndex := 2; Landing.charIndex := 11; Landing.isDeleting := true;
       Landing.typingSpeed := 100; Landing.typingText := "Patient Hub" |}.
Proof.
  destruct (LandingFacts.phrase_typed_then_erased 2 "Patient Hub") as [H _];
    [reflexivity |].
  exact (f_equal snd H).
Defined.


Lemma twelve_hour_time_witness :
  (exists H,
     1 <= H <= 12 /\
     (Dashboard.formatToLocalTime
        {| Dashboard.getHours := Dashboard.Num 0; Dashboard.getMinutes := Dashboard.Num 5;
           Dashboard.toLocaleDateString := "Mon, 02 Nov 2026" |}).1
     = pretty H +:+ ":" +:+ Dashboard.pad 5 +:+ " AM") /\
  ((Dashboard.formatToLocalTime
      {| Dashboard.getHours := Dashboard.Num 0; Dashboard.getMinutes := Dashboard.Num 5;
         Dashboard.toLocaleDateString := "Mon, 02 Nov 2026" |}).1
   = (Dashboard.formatToLocalTime
        {| Dashboard.getHours := Dashboard.Num 12; Dashboard.getMinutes := Dashboard.Num 5;
           Dashboard.toLocaleDateString := "Mon, 02 Nov 2026" |}).1 ->
   0 = 12 /\ 5 = 5).
Proof.
  destruct (DashboardFacts.twelve_hour_time 0 5 12 5
              "Mon, 02 Nov 2026" "Mon, 02 Nov 2026")
    as [(H & Hrange & _ & _ & Htext) Hinj]; [lia .. |].
  split; [| exact Hinj].
  exists H. split; [exact Hrange | exact (f_equal fst Htext)].
Defined.



